(** * EduAuth: authentication and authorization core

    A shallow embedding of the Python sources of the [eduauth] package
    ([models.py], [db_models.py], [config.py], [jwt_handler.py], [auth.py],
    [verify_email.py], [reset_password.py], [routes.py]) together with the
    properties of its credential and token life cycles.

    Conventions of the embedding:
    - a [datetime] in UTC is its POSIX timestamp in whole seconds (the
      resolution of the JWT [exp] claim), a [timedelta] a number of seconds;
    - a Python computation that may raise is a value of [py A];
    - the MongoDB [users] collection is the list of its documents in natural
      order and is threaded explicitly through every operation that writes;
    - readings of the clock ([datetime.now]) and the output of the random
      generator ([secrets.token_urlsafe]) are arguments of the operation that
      makes them. *)

From Stdlib Require Import ZArith Lia Ascii String.
From stdpp Require Import base decidable option list strings gmap pretty.

Local Open Scope string_scope.
Local Open Scope Z_scope.

(** ** Python exceptions and HTTP responses *)

Record HTTPException := mkHTTPException {
  status_code : Z;
  detail : string;
  headers : list (string * string)
}.

Definition HTTP_200_OK : Z := 200.
Definition HTTP_400_BAD_REQUEST : Z := 400.
Definition HTTP_401_UNAUTHORIZED : Z := 401.
Definition HTTP_403_FORBIDDEN : Z := 403.
Definition HTTP_500_INTERNAL_SERVER_ERROR : Z := 500.

(** The exceptions that the modelled code and its libraries raise. *)
Inductive exn :=
| HTTPError (e : HTTPException)     (* fastapi.HTTPException *)
| ExpiredSignatureError             (* jwt *)
| InvalidSignatureError             (* jwt *)
| InvalidAlgorithmError             (* jwt *)
| DecodeError                       (* jwt *)
| ValueError (what : string)        (* Enum lookup, pydantic validation *)
| UnknownHashError                  (* passlib.exc *)
| InvalidId (oid : string)          (* bson.errors *)
| NameError (name : string).

Inductive py (A : Type) :=
| Return (a : A)
| Raise (e : exn).
Arguments Return {A} a.
Arguments Raise {A} e.

#[global] Instance py_ret : MRet py := λ A a, Return a.
#[global] Instance py_bind : MBind py := λ A B f m,
  match m with
  | Return a => f a
  | Raise e => Raise e
  end.

#[global] Instance HTTPException_eq_dec : EqDecision HTTPException.
Proof. solve_decision. Defined.
#[global] Instance exn_eq_dec : EqDecision exn.
Proof. solve_decision. Defined.

(** [jwt.InvalidTokenError] is the base class of the errors of [jwt.decode]. *)
Definition is_InvalidTokenError (e : exn) : bool :=
  match e with
  | ExpiredSignatureError | InvalidSignatureError
  | InvalidAlgorithmError | DecodeError => true
  | _ => false
  end.

(** What the HTTP client observes: the status line of the response.  An
    [HTTPException] carries its own status, any other exception that leaves
    a handler is answered with 500. *)
Definition response_status {A} (success : Z) (r : py A) : Z :=
  match r with
  | Return _ => success
  | Raise (HTTPError e) => status_code e
  | Raise _ => HTTP_500_INTERNAL_SERVER_ERROR
  end.

(** ** models.py *)

Inductive UserRole := STUDENT | TEACHER | ADMIN.
Inductive UserStatus := ACTIVE | INACTIVE | PENDING_VERIFICATION.

#[global] Instance UserRole_eq_dec : EqDecision UserRole.
Proof. solve_decision. Defined.
#[global] Instance UserStatus_eq_dec : EqDecision UserStatus.
Proof. solve_decision. Defined.

Definition UserRole_value (r : UserRole) : string :=
  match r with
  | STUDENT => "student"
  | TEACHER => "teacher"
  | ADMIN => "admin"
  end.

Definition UserStatus_value (s : UserStatus) : string :=
  match s with
  | ACTIVE => "active"
  | INACTIVE => "inactive"
  | PENDING_VERIFICATION => "pending_verification"
  end.

(** JSON values as they occur in a token payload. *)
Inductive json :=
| JNull
| JBool (b : bool)
| JNum (n : Z)
| JStr (s : string).

#[global] Instance json_eq_dec : EqDecision json.
Proof. solve_decision. Defined.

(** [UserRole(value)]: lookup of an enum member by value. *)
Definition UserRole_call (v : json) : py UserRole :=
  match v with
  | JStr s =>
      if decide (s = "student") then Return STUDENT
      else if decide (s = "teacher") then Return TEACHER
      else if decide (s = "admin") then Return ADMIN
      else Raise (ValueError "not a valid UserRole")
  | _ => Raise (ValueError "not a valid UserRole")
  end.

(** Python's [str] on a JSON scalar. *)
Definition py_str (v : json) : string :=
  match v with
  | JNull => "None"
  | JBool true => "True"
  | JBool false => "False"
  | JNum n => pretty n
  | JStr s => s
  end.

Record TokenData := mkTokenData {
  td_email : option string;
  td_role : option UserRole;
  td_id : option string
}.

#[global] Instance TokenData_eq_dec : EqDecision TokenData.
Proof. solve_decision. Defined.

(** [TokenData(email=..., role=..., id=...)]: [email] must validate as a
    string, [id] goes through [BeforeValidator(str)]. *)
Definition TokenData_call (email : json) (role : UserRole) (id : json)
  : py TokenData :=
  match email with
  | JStr e => Return (mkTokenData (Some e) (Some role) (Some (py_str id)))
  | _ => Raise (ValueError "email: input should be a valid string")
  end.

Record UserLogin := mkUserLogin {
  ul_email : string;
  ul_password : string
}.

Record PasswordResetRequest := mkPasswordResetRequest { prr_email : string }.

Record PasswordResetConfirm := mkPasswordResetConfirm {
  prc_token : string;
  prc_new_password : string
}.

(** ** config.py *)

Record Settings := mkSettings {
  JWT_SECRET_KEY : string;
  JWT_ALGORITHM : string;
  ACCESS_TOKEN_EXPIRE_MINUTES : Z;
  REFRESH_TOKEN_EXPIRE_MINUTES : Z;
  PASSWORD_RESET_TOKEN_EXPIRE_MINUTES : Z;
  EMAIL_VERIFICATION_TOKEN_EXPIRE_MINUTES : Z
}.

Definition default_settings : Settings := {|
  JWT_SECRET_KEY := "your_super_secret_jwt_key_please_change_this_in_production";
  JWT_ALGORITHM := "HS256";
  ACCESS_TOKEN_EXPIRE_MINUTES := 30;
  REFRESH_TOKEN_EXPIRE_MINUTES := 10080;
  PASSWORD_RESET_TOKEN_EXPIRE_MINUTES := 60;
  EMAIL_VERIFICATION_TOKEN_EXPIRE_MINUTES := 1440
|}.

(** [timedelta(minutes=m)] in seconds. *)
Definition minutes (m : Z) : Z := 60 * m.

(** ** The PyJWT library, symbolically

    A compact token is either a string that is no JWS at all, or a payload
    signed under a key with an algorithm.  The signature of a [Signed] token
    verifies under exactly the key it was made with. *)
Inductive bearer :=
| Garbage (raw : string)
| Signed (key alg : string) (payload : gmap string json).

#[global] Instance bearer_eq_dec : EqDecision bearer.
Proof. solve_decision. Defined.

Definition jwt_encode (payload : gmap string json) (key alg : string) : bearer :=
  Signed key alg payload.

(** [jwt.decode(token, key, algorithms=algs, options={"verify_exp": True})]
    at clock reading [now]: header and algorithm, then signature, then the
    [exp] claim when the payload has one (expired when [exp <= now]).
    Of the registered claims only [exp] is looked at: a payload with [nbf],
    [iat], [aud], [iss], [sub] or [jti], which the library validates as
    well, lies outside this model. *)
Definition jwt_decode (now : Z) (token : bearer) (key : string)
    (algs : list string) : py (gmap string json) :=
  match token with
  | Garbage _ => Raise DecodeError
  | Signed k alg payload =>
      if negb (bool_decide (alg ∈ algs)) then Raise InvalidAlgorithmError
      else if negb (bool_decide (k = key)) then Raise InvalidSignatureError
      else match payload !! "exp" with
           | None => Return payload
           | Some (JNum exp) =>
               if exp <=? now then Raise ExpiredSignatureError
               else Return payload
           | Some _ => Raise DecodeError
           end
  end.

(** [dict.get(key)]: [None] when the key is absent; a JSON [null] is
    Python's [None] as well. *)
Definition dict_get (d : gmap string json) (k : string) : option json :=
  match d !! k with
  | Some JNull => None
  | o => o
  end.

(** ** jwt_handler.py *)

Section JwtHandler.
Variable settings : Settings.

(** [expires_delta] is [None] or a [timedelta]; a zero [timedelta] is
    falsy, like [None]. *)
Definition create_access_token (data : gmap string json)
    (expires_delta : option Z) (now : Z) : bearer :=
  let to_encode := data in
  let expire :=
    match expires_delta with
    | Some delta =>
        if decide (delta = 0)
        then now + minutes (ACCESS_TOKEN_EXPIRE_MINUTES settings)
        else now + delta
    | None => now + minutes (ACCESS_TOKEN_EXPIRE_MINUTES settings)
    end in
  let to_encode := <["exp" := JNum expire]> to_encode in
  jwt_encode to_encode (JWT_SECRET_KEY settings) (JWT_ALGORITHM settings).

Definition credentials_exception : HTTPException := {|
  status_code := HTTP_401_UNAUTHORIZED;
  detail := "Could not validate credentials";
  headers := [("WWW-Authenticate", "Bearer")]
|}.

Definition expired_exception : HTTPException := {|
  status_code := HTTP_401_UNAUTHORIZED;
  detail := "Token has expired";
  headers := [("WWW-Authenticate", "Bearer")]
|}.

(** The body of the [try] block of [decode_token]. *)
Definition decode_token_try (now : Z) (token : bearer) : py TokenData :=
  payload ← jwt_decode now token (JWT_SECRET_KEY settings)
              [JWT_ALGORITHM settings];
  let email := dict_get payload "email" in
  let role := dict_get payload "role" in
  let user_id := dict_get payload "id" in
  match email, role, user_id with
  | Some email, Some role, Some user_id =>
      r ← UserRole_call role;
      TokenData_call email r user_id
  | _, _, _ => Raise (HTTPError credentials_exception)
  end.

(** [decode_token]: the [except] clauses in their order.  The last clause
    also prints the exception on the server's standard output, which no
    client observes. *)
Definition decode_token (now : Z) (token : bearer) : py TokenData :=
  match decode_token_try now token with
  | Return td => Return td
  | Raise ExpiredSignatureError => Raise (HTTPError expired_exception)
  | Raise e =>
      if is_InvalidTokenError e then Raise (HTTPError credentials_exception)
      else Raise (HTTPError credentials_exception)
  end.
End JwtHandler.

(** ** The passlib context [CryptContext(schemes=["bcrypt"])]

    [CryptContext.verify] first identifies the scheme of the stored hash and
    raises [UnknownHashError] when no configured scheme claims it; only then
    does it hand over to the scheme's handler.  The bcrypt handler claims a
    hash by its identifier prefix.  The handler itself (salt generation and
    the Blowfish computation) is a parameter. *)

Definition bcrypt_ident_values : list string :=
  ["$2$"; "$2a$"; "$2x$"; "$2y$"; "$2b$"].

Definition bcrypt_identify (hash : string) : bool :=
  existsb (λ ident, String.prefix ident hash) bcrypt_ident_values.

Record bcrypt_handler := mkBcrypt {
  (* [bcrypt.using(salt=...).hash(secret)] *)
  bcrypt_hash : string → string → string;
  (* [bcrypt.verify(secret, hash)] for a hash the handler identifies *)
  bcrypt_verify : string → string → py bool
}.

Definition pwd_context_hash (bcrypt : bcrypt_handler) (salt secret : string)
  : string :=
  bcrypt_hash bcrypt salt secret.

Definition pwd_context_verify (bcrypt : bcrypt_handler) (secret hash : string)
  : py bool :=
  if bcrypt_identify hash then bcrypt_verify bcrypt secret hash
  else Raise UnknownHashError.

(** ** bson.ObjectId *)

Record ObjectId := mkObjectId { oid_hex : string }.

#[global] Instance ObjectId_eq_dec : EqDecision ObjectId.
Proof. solve_decision. Defined.

Definition is_hex_digit (c : ascii) : bool :=
  let n := Ascii.N_of_ascii c in
  ((48 <=? n) && (n <=? 57) || (97 <=? n) && (n <=? 102)
   || (65 <=? n) && (n <=? 70))%N.

Definition hex_lower (c : ascii) : ascii :=
  let n := Ascii.N_of_ascii c in
  if ((65 <=? n) && (n <=? 70))%N then Ascii.ascii_of_N (n + 32) else c.

Fixpoint string_forall (p : ascii → bool) (s : string) : bool :=
  match s with
  | EmptyString => true
  | String c s' => p c && string_forall p s'
  end.

Fixpoint string_map (f : ascii → ascii) (s : string) : string :=
  match s with
  | EmptyString => EmptyString
  | String c s' => String (f c) (string_map f s')
  end.

(** [ObjectId(oid)] on a string: 24 hexadecimal digits, or [InvalidId].
    (A string of 24 characters with white space between its digits, which
    [bytes.fromhex] reads as well, lies outside this model.) *)
Definition ObjectId_call (oid : string) : py ObjectId :=
  if bool_decide (String.length oid = 24%nat) && string_forall is_hex_digit oid
  then Return (mkObjectId (string_map hex_lower oid))
  else Raise (InvalidId oid).

(** [str(oid)] *)
Definition ObjectId_str (oid : ObjectId) : string := oid_hex oid.

(** ** The [users] collection *)

(** A user document, with the keys that [UserModel] dumps. *)
Record document := mkDocument {
  _id : ObjectId;
  email : string;
  hashed_password : string;
  full_name : string;
  role : UserRole;
  status : UserStatus;
  is_verified : bool;
  verification_token : option string;
  verification_token_expires_at : option Z;
  reset_password_token : option string;
  reset_password_token_expires_at : option Z;
  created_at : Z;
  updated_at : Z
}.

#[global] Instance document_eq_dec : EqDecision document.
Proof. solve_decision. Defined.

Abbreviation collection := (list document).

(** The value given for [_id] in a filter: an [ObjectId] or a string.  BSON
    compares values of different types as different. *)
Inductive bson_id :=
| BObjectId (oid : ObjectId)
| BString (s : string).

(** The conditions that the filters of this code base are made of:
    [{key: value}] and [{key: {"$gt": value}}]. *)
Inductive condition :=
| Eq__id (v : bson_id)
| Eq_email (v : string)
| Eq_verification_token (v : string)
| Gt_verification_token_expires_at (v : Z)
| Eq_reset_password_token (v : string)
| Gt_reset_password_token_expires_at (v : Z).

Definition holds (d : document) (c : condition) : bool :=
  match c with
  | Eq__id (BObjectId oid) => bool_decide (_id d = oid)
  | Eq__id (BString _) => false
  | Eq_email v => bool_decide (email d = v)
  | Eq_verification_token v => bool_decide (verification_token d = Some v)
  | Gt_verification_token_expires_at v =>
      match verification_token_expires_at d with
      | Some t => v <? t
      | None => false
      end
  | Eq_reset_password_token v => bool_decide (reset_password_token d = Some v)
  | Gt_reset_password_token_expires_at v =>
      match reset_password_token_expires_at d with
      | Some t => v <? t
      | None => false
      end
  end.

Definition matches (query : list condition) (d : document) : bool :=
  forallb (holds d) query.

(** [collection.find_one(query)]: the first matching document. *)
Definition find_one (query : list condition) (coll : collection)
  : option document :=
  snd <$> list_find (λ d, matches query d = true) coll.

(** The assignments of a [{"$set": {...}}] update. *)
Inductive assignment :=
| Set_hashed_password (v : string)
| Set_status (v : UserStatus)
| Set_is_verified (v : bool)
| Set_verification_token (v : option string)
| Set_verification_token_expires_at (v : option Z)
| Set_reset_password_token (v : option string)
| Set_reset_password_token_expires_at (v : option Z)
| Set_updated_at (v : Z).

Definition assign (d : document) (a : assignment) : document :=
  match a with
  | Set_hashed_password v =>
      mkDocument (_id d) (email d) v (full_name d) (role d) (status d)
        (is_verified d) (verification_token d)
        (verification_token_expires_at d) (reset_password_token d)
        (reset_password_token_expires_at d) (created_at d) (updated_at d)
  | Set_status v =>
      mkDocument (_id d) (email d) (hashed_password d) (full_name d) (role d)
        v (is_verified d) (verification_token d)
        (verification_token_expires_at d) (reset_password_token d)
        (reset_password_token_expires_at d) (created_at d) (updated_at d)
  | Set_is_verified v =>
      mkDocument (_id d) (email d) (hashed_password d) (full_name d) (role d)
        (status d) v (verification_token d)
        (verification_token_expires_at d) (reset_password_token d)
        (reset_password_token_expires_at d) (created_at d) (updated_at d)
  | Set_verification_token v =>
      mkDocument (_id d) (email d) (hashed_password d) (full_name d) (role d)
        (status d) (is_verified d) v
        (verification_token_expires_at d) (reset_password_token d)
        (reset_password_token_expires_at d) (created_at d) (updated_at d)
  | Set_verification_token_expires_at v =>
      mkDocument (_id d) (email d) (hashed_password d) (full_name d) (role d)
        (status d) (is_verified d) (verification_token d)
        v (reset_password_token d)
        (reset_password_token_expires_at d) (created_at d) (updated_at d)
  | Set_reset_password_token v =>
      mkDocument (_id d) (email d) (hashed_password d) (full_name d) (role d)
        (status d) (is_verified d) (verification_token d)
        (verification_token_expires_at d) v
        (reset_password_token_expires_at d) (created_at d) (updated_at d)
  | Set_reset_password_token_expires_at v =>
      mkDocument (_id d) (email d) (hashed_password d) (full_name d) (role d)
        (status d) (is_verified d) (verification_token d)
        (verification_token_expires_at d) (reset_password_token d)
        v (created_at d) (updated_at d)
  | Set_updated_at v =>
      mkDocument (_id d) (email d) (hashed_password d) (full_name d) (role d)
        (status d) (is_verified d) (verification_token d)
        (verification_token_expires_at d) (reset_password_token d)
        (reset_password_token_expires_at d) (created_at d) v
  end.

Definition apply_set (update : list assignment) (d : document) : document :=
  fold_left assign update d.

Record UpdateResult := mkUpdateResult {
  matched_count : Z;
  modified_count : Z
}.

(** [collection.update_one(query, {"$set": update})]: the first matching
    document is rewritten in place; [modified_count] counts it only when the
    rewrite changed it. *)
Definition update_one (query : list condition) (update : list assignment)
    (coll : collection) : UpdateResult * collection :=
  match list_find (λ d, matches query d = true) coll with
  | None => (mkUpdateResult 0 0, coll)
  | Some (i, d) =>
      let d' := apply_set update d in
      (mkUpdateResult 1 (if decide (d' = d) then 0 else 1), <[i := d']> coll)
  end.

(** ** db_models.py *)

Module UserModel.
Record t := mk {
  id : string;
  email : string;
  hashed_password : string;
  full_name : string;
  role : UserRole;
  status : UserStatus;
  is_verified : bool;
  verification_token : option string;
  verification_token_expires_at : option Z;
  reset_password_token : option string;
  reset_password_token_expires_at : option Z;
  created_at : Z;
  updated_at : Z
}.

(** [Config.json_encoders = {ObjectId: str}]: the entry under the key
    [ObjectId] is the function [str]. *)
Definition Config_json_encoders_ObjectId (v : string) : string := v.
End UserModel.

(** The construction of a [UserModel] from a document's keys: [_id]
    populates [id] through [BeforeValidator(str)]. *)
Definition UserModel_call (user_doc : document) : UserModel.t :=
  UserModel.mk (ObjectId_str (_id user_doc)) (email user_doc)
    (hashed_password user_doc) (full_name user_doc) (role user_doc)
    (status user_doc) (is_verified user_doc) (verification_token user_doc)
    (verification_token_expires_at user_doc) (reset_password_token user_doc)
    (reset_password_token_expires_at user_doc) (created_at user_doc)
    (updated_at user_doc).

(** ** Module name spaces

    A name used in a function body is looked up, when the body runs, among
    the names bound at the top level of the module that defines the function
    (its imports and its definitions); an unbound name raises [NameError]. *)

Definition reset_password_globals : list string :=
  ["secrets"; "datetime"; "timedelta"; "timezone"; "Optional"; "Any";
   "settings"; "send_email"; "UserModel"; "hash_password_placeholder";
   "generate_reset_password_token"; "send_password_reset_email";
   "store_reset_password_token"; "reset_user_password"].

Definition load_global (globals : list string) (name : string) : py unit :=
  if bool_decide (name ∈ globals) then Return tt else Raise (NameError name).

Section Application.
Variable settings : Settings.
Variable bcrypt : bcrypt_handler.

(** ** auth.py *)

Definition hash_password (salt password : string) : string :=
  pwd_context_hash bcrypt salt password.

Definition verify_password (plain_password hashed_password : string)
  : py bool :=
  pwd_context_verify bcrypt plain_password hashed_password.

Definition unverified_exception : HTTPException := {|
  status_code := HTTP_403_FORBIDDEN;
  detail := "Account not verified. Please verify your email.";
  headers := []
|}.

Definition get_current_user (now : Z) (token : bearer) (db : collection)
  : py UserModel.t :=
  token_data ← decode_token settings now token;
  match td_id token_data with
  | None => Raise (HTTPError credentials_exception)
  | Some user_id =>
      oid ← ObjectId_call user_id;
      match find_one [Eq__id (BObjectId oid)] db with
      | None => Raise (HTTPError credentials_exception)
      | Some user_doc =>
          let user := UserModel_call user_doc in
          if negb (UserModel.is_verified user)
             && negb (bool_decide (UserModel.role user = ADMIN))
          then Raise (HTTPError unverified_exception)
          else Return user
      end
  end.

Definition get_current_active_user (current_user : UserModel.t)
  : py UserModel.t :=
  if negb (bool_decide (UserModel.status current_user = ACTIVE))
  then Raise (HTTPError {|
         status_code := HTTP_400_BAD_REQUEST;
         detail := "Inactive user";
         headers := [] |})
  else Return current_user.

Definition get_current_admin_user (current_user : UserModel.t)
  : py UserModel.t :=
  if negb (bool_decide (UserModel.role current_user = ADMIN))
  then Raise (HTTPError {|
         status_code := HTTP_403_FORBIDDEN;
         detail := "Not enough permissions. Admin access required.";
         headers := [] |})
  else Return current_user.

Definition get_current_teacher_or_admin_user (current_user : UserModel.t)
  : py UserModel.t :=
  if negb (bool_decide (UserModel.role current_user ∈ [TEACHER; ADMIN]))
  then Raise (HTTPError {|
         status_code := HTTP_403_FORBIDDEN;
         detail := "Not enough permissions. Teacher or Admin access required.";
         headers := [] |})
  else Return current_user.

Definition get_current_student_user (current_user : UserModel.t)
  : py UserModel.t :=
  if negb (bool_decide (UserModel.role current_user = STUDENT))
  then Raise (HTTPError {|
         status_code := HTTP_403_FORBIDDEN;
         detail := "Not enough permissions. Student access required.";
         headers := [] |})
  else Return current_user.

(** ** verify_email.py *)

(** [verify_user_email]: [now] is the clock reading of the lookup, [now']
    the one of the update.  The store of this model raises nothing; of the
    [except] clause there remains the case of a document that is gone when
    it is read back. *)
Definition verify_user_email (verification_token : string) (now now' : Z)
    (db : collection) : option UserModel.t * collection :=
  match find_one [Eq_verification_token verification_token;
                  Gt_verification_token_expires_at now] db with
  | None => (None, db)
  | Some user =>
      let '(_, db) :=
        update_one [Eq__id (BObjectId (_id user))]
          [Set_is_verified true;
           Set_status ACTIVE;
           Set_verification_token None;
           Set_verification_token_expires_at None;
           Set_updated_at now'] db in
      match find_one [Eq__id (BObjectId (_id user))] db with
      | Some updated_user => (Some (UserModel_call updated_user), db)
      | None => (None, db)
      end
  end.

(** ** reset_password.py *)

Definition hash_password_placeholder (password : string) : string :=
  "hashed_" +:+ password.

(** [store_reset_password_token]: the filter of the update is
    [{"_id": UserModel.Config.json_encoders[ObjectId](user_id)}]; any
    exception raised in the [try] block makes the function return
    [False]. *)
Definition store_reset_password_token (user_id token : string)
    (now now' : Z) (db : collection) : bool * collection :=
  let expires_at :=
    now + minutes (PASSWORD_RESET_TOKEN_EXPIRE_MINUTES settings) in
  let attempt : py (UpdateResult * collection) :=
    _ ← load_global reset_password_globals "ObjectId";
    let key := UserModel.Config_json_encoders_ObjectId user_id in
    Return (update_one [Eq__id (BString key)]
              [Set_reset_password_token (Some token);
               Set_reset_password_token_expires_at (Some expires_at);
               Set_updated_at now'] db) in
  match attempt with
  | Return (result, db) => (0 <? modified_count result, db)
  | Raise _ => (false, db)
  end.

Definition reset_user_password (reset_token new_password : string)
    (now now' : Z) (db : collection) : option UserModel.t * collection :=
  match find_one [Eq_reset_password_token reset_token;
                  Gt_reset_password_token_expires_at now] db with
  | None => (None, db)
  | Some user =>
      let hashed_new_password := hash_password_placeholder new_password in
      let '(_, db) :=
        update_one [Eq__id (BObjectId (_id user))]
          [Set_hashed_password hashed_new_password;
           Set_reset_password_token None;
           Set_reset_password_token_expires_at None;
           Set_updated_at now'] db in
      match find_one [Eq__id (BObjectId (_id user))] db with
      | Some updated_user => (Some (UserModel_call updated_user), db)
      | None => (None, db)
      end
  end.

(** ** routes.py *)

Record Token := mkToken {
  access_token : bearer;
  token_type : string
}.

(** A task handed to [BackgroundTasks.add_task]. *)
Inductive background_task :=
| send_password_reset_email (user_email reset_token : string).

Definition verify_email_endpoint (token : string) (now now' : Z)
    (db : collection) : py UserModel.t * collection :=
  let '(verified_user, db) := verify_user_email token now now' db in
  match verified_user with
  | None =>
      (Raise (HTTPError {|
         status_code := HTTP_400_BAD_REQUEST;
         detail := "Invalid or expired verification token.";
         headers := [] |}), db)
  | Some verified_user => (Return verified_user, db)
  end.

Definition incorrect_email_or_password : HTTPException := {|
  status_code := HTTP_401_UNAUTHORIZED;
  detail := "Incorrect email or password";
  headers := [("WWW-Authenticate", "Bearer")]
|}.

Definition login_for_access_token (user_login : UserLogin) (now : Z)
    (db : collection) : py Token :=
  match find_one [Eq_email (ul_email user_login)] db with
  | None => Raise (HTTPError incorrect_email_or_password)
  | Some user_doc =>
      let user := UserModel_call user_doc in
      ok ← verify_password (ul_password user_login)
             (UserModel.hashed_password user);
      if negb ok then Raise (HTTPError incorrect_email_or_password)
      else if negb (UserModel.is_verified user) then
        Raise (HTTPError {|
          status_code := HTTP_403_FORBIDDEN;
          detail := "Account not verified. Please verify your email.";
          headers := [("WWW-Authenticate", "Bearer")] |})
      else if negb (bool_decide (UserModel.status user = ACTIVE)) then
        Raise (HTTPError {|
          status_code := HTTP_403_FORBIDDEN;
          detail := "Account is inactive. Please contact support.";
          headers := [("WWW-Authenticate", "Bearer")] |})
      else
        let access_token :=
          create_access_token settings
            (<["email" := JStr (UserModel.email user)]>
               (<["role" := JStr (UserRole_value (UserModel.role user))]>
                  (<["id" := JStr (UserModel.id user)]> ∅)))
            None now in
        Return {| access_token := access_token; token_type := "bearer" |}
  end.

Definition reset_request_message : list (string * string) :=
  [("message",
    "If your email is registered, a password reset link has been sent.")].

(** [request_password_reset]: [reset_token] is the output of
    [generate_reset_password_token]; the result is the response, the
    collection and the background tasks that were added. *)
Definition request_password_reset (request : PasswordResetRequest)
    (reset_token : string) (now now' : Z) (db : collection)
  : py (list (string * string)) * collection * list background_task :=
  match find_one [Eq_email (prr_email request)] db with
  | None => (Return reset_request_message, db, [])
  | Some user_doc =>
      let user := UserModel_call user_doc in
      let '(updated, db) :=
        store_reset_password_token (UserModel.id user) reset_token
          now now' db in
      if negb updated then
        (Raise (HTTPError {|
           status_code := HTTP_500_INTERNAL_SERVER_ERROR;
           detail := "Failed to generate password reset token.";
           headers := [] |}), db, [])
      else
        (Return reset_request_message, db,
         [send_password_reset_email (UserModel.email user) reset_token])
  end.

Definition confirm_password_reset (request : PasswordResetConfirm)
    (now now' : Z) (db : collection) : py UserModel.t * collection :=
  let '(updated_user, db) :=
    reset_user_password (prc_token request) (prc_new_password request)
      now now' db in
  match updated_user with
  | None =>
      (Raise (HTTPError {|
         status_code := HTTP_400_BAD_REQUEST;
         detail := "Invalid or expired password reset token.";
         headers := [] |}), db)
  | Some updated_user => (Return updated_user, db)
  end.

(** The protected routes.  FastAPI resolves [Depends(f)] by resolving the
    dependencies of [f] and calling it; an exception raised on the way is
    the response.  Every route returns the user that its dependency
    yields. *)
Definition protected_student_route (now : Z) (token : bearer)
    (db : collection) : py UserModel.t :=
  current_user ← get_current_user now token db;
  current_user ← get_current_active_user current_user;
  get_current_student_user current_user.

Definition protected_teacher_route (now : Z) (token : bearer)
    (db : collection) : py UserModel.t :=
  current_user ← get_current_user now token db;
  current_user ← get_current_active_user current_user;
  get_current_teacher_or_admin_user current_user.

Definition protected_admin_route (now : Z) (token : bearer)
    (db : collection) : py UserModel.t :=
  current_user ← get_current_user now token db;
  current_user ← get_current_active_user current_user;
  get_current_admin_user current_user.

Definition protected_any_active_route (now : Z) (token : bearer)
    (db : collection) : py UserModel.t :=
  current_user ← get_current_user now token db;
  get_current_active_user current_user.
End Application.

(** ** Concrete data for evaluation *)

(** A stand-in for the bcrypt handler: the digest of a secret is the
    identifier and cost, the 22 characters of salt, and the secret itself in
    place of its Blowfish checksum. *)
Definition test_bcrypt : bcrypt_handler := {|
  bcrypt_hash salt secret := "$2b$12$" +:+ salt +:+ secret;
  bcrypt_verify secret hash :=
    Return (bool_decide
              (String.substring 29 (String.length hash - 29) hash = secret))
|}.

Definition test_salt : string := "abcdefghijklmnopqrstuu".

Definition admin_doc : document := {|
  _id := mkObjectId "65a000000000000000000001";
  email := "root@x.com";
  hashed_password := bcrypt_hash test_bcrypt test_salt "password123";
  full_name := "Root";
  role := ADMIN;
  status := ACTIVE;
  is_verified := false;
  verification_token := None;
  verification_token_expires_at := None;
  reset_password_token := None;
  reset_password_token_expires_at := None;
  created_at := 1000;
  updated_at := 1000
|}.

Definition student_doc : document := {|
  _id := mkObjectId "65a000000000000000000002";
  email := "a@x.com";
  hashed_password := bcrypt_hash test_bcrypt test_salt "password123";
  full_name := "A";
  role := STUDENT;
  status := PENDING_VERIFICATION;
  is_verified := false;
  verification_token := Some "vtok";
  verification_token_expires_at := Some 5000;
  reset_password_token := Some "rtok";
  reset_password_token_expires_at := Some 5000;
  created_at := 1000;
  updated_at := 1000
|}.

Definition inactive_doc : document := {|
  _id := mkObjectId "65a000000000000000000003";
  email := "b@x.com";
  hashed_password := bcrypt_hash test_bcrypt test_salt "password456";
  full_name := "B";
  role := TEACHER;
  status := INACTIVE;
  is_verified := true;
  verification_token := Some "vtok3";
  verification_token_expires_at := Some 5000;
  reset_password_token := Some "rtok3";
  reset_password_token_expires_at := Some 5000;
  created_at := 1000;
  updated_at := 1000
|}.

Definition active_student_doc : document := {|
  _id := mkObjectId "65a000000000000000000004";
  email := "c@x.com";
  hashed_password := bcrypt_hash test_bcrypt test_salt "password789";
  full_name := "C";
  role := STUDENT;
  status := ACTIVE;
  is_verified := true;
  verification_token := None;
  verification_token_expires_at := None;
  reset_password_token := None;
  reset_password_token_expires_at := None;
  created_at := 1000;
  updated_at := 1500
|}.

Definition test_db : collection :=
  [admin_doc; student_doc; inactive_doc; active_student_doc].

(** The tokens that a login of the admin and of the teacher would carry,
    issued at time 1000. *)
Definition admin_token : bearer :=
  create_access_token default_settings
    (<["email" := JStr "root@x.com"]>
       (<["role" := JStr "admin"]>
          (<["id" := JStr "65a000000000000000000001"]> ∅)))
    None 1000.

Definition teacher_token : bearer :=
  create_access_token default_settings
    (<["email" := JStr "b@x.com"]>
       (<["role" := JStr "teacher"]>
          (<["id" := JStr "65a000000000000000000003"]> ∅)))
    None 1000.

(** * Vocabulary of the properties *)

(** ** Invariants of the store *)

(** [_id] is the primary key of the collection. *)
Definition primary_key (db : collection) : Prop := NoDup (_id <$> db).

(** The value [t] of an ephemeral token field is outstanding on at most one
    account. *)
Definition outstanding_once (field : document → option string) (t : string)
    (db : collection) : Prop :=
  (length (filter (λ d, field d = Some t) db) ≤ 1)%nat.

#[global] Instance primary_key_dec db : Decision (primary_key db).
Proof. unfold primary_key. apply _. Defined.
#[global] Instance outstanding_once_dec field t db :
  Decision (outstanding_once field t db).
Proof. unfold outstanding_once. apply _. Defined.

(** ** Effects of a consume *)

(** The document that [verify_user_email] writes back. *)
Definition verified_doc (now' : Z) (d : document) : document :=
  apply_set [Set_is_verified true; Set_status ACTIVE;
             Set_verification_token None;
             Set_verification_token_expires_at None;
             Set_updated_at now'] d.

(** The document that [reset_user_password] writes back. *)
Definition reset_doc (new_password : string) (now' : Z) (d : document)
  : document :=
  apply_set [Set_hashed_password (hash_password_placeholder new_password);
             Set_reset_password_token None;
             Set_reset_password_token_expires_at None;
             Set_updated_at now'] d.

(** ** Claims and failure modes of the token codec *)

(** The claims set that [login_for_access_token] signs:
    [{"email": ..., "role": role.value, "id": ...}]. *)
Definition claims (id email : string) (role : UserRole) : gmap string json :=
  <["email" := JStr email]>
    (<["role" := JStr (UserRole_value role)]> (<["id" := JStr id]> ∅)).

(** The failure modes of decoding in the words of the specification: a
    token is [Expired] when the library reports its signature expired,
    [Malformed_or_InvalidSignature] when the library rejects it otherwise,
    and has a [MissingRequiredClaim] when it verifies but its payload lacks
    the subject id, the email or the role. *)
Inductive failure_mode :=
| Expired
| Malformed_or_InvalidSignature
| MissingRequiredClaim.

Definition failure_mode_of (settings : Settings) (now : Z) (token : bearer)
  : option failure_mode :=
  match jwt_decode now token (JWT_SECRET_KEY settings)
          [JWT_ALGORITHM settings] with
  | Raise ExpiredSignatureError => Some Expired
  | Raise _ => Some Malformed_or_InvalidSignature
  | Return payload =>
      match dict_get payload "id", dict_get payload "email",
            dict_get payload "role" with
      | Some _, Some _, Some _ => None
      | _, _, _ => Some MissingRequiredClaim
      end
  end.

(** The outcome at the boundary of each failure mode. *)
Definition failure_outcome (m : failure_mode) : HTTPException :=
  match m with
  | Expired => expired_exception
  | Malformed_or_InvalidSignature => credentials_exception
  | MissingRequiredClaim => credentials_exception
  end.

(** ** The guard chain of the specification *)

#[global] Instance py_eq_dec {A} `{EqDecision A} : EqDecision (py A).
Proof. solve_decision. Defined.

(** The four role variants that a protected operation may require. *)
Inductive role_variant :=
| student_only
| teacher_or_admin
| admin_only
| any_active_verified.

(** The route of each variant, as [routes.py] declares it. *)
Definition protected_route (settings : Settings) (v : role_variant)
  : Z → bearer → collection → py UserModel.t :=
  match v with
  | student_only => protected_student_route settings
  | teacher_or_admin => protected_teacher_route settings
  | admin_only => protected_admin_route settings
  | any_active_verified => protected_any_active_route settings
  end.

(** The guard chain in the words of the specification (section 4.5): the
    four checks in their fixed order, each failing fast with its own
    rejection. *)
Inductive rejection :=
| Unauthorized
| Forbidden_unverified
| BadRequest_inactive
| Forbidden_insufficient_role.

Definition rejection_status (r : rejection) : Z :=
  match r with
  | Unauthorized => 401
  | Forbidden_unverified => 403
  | BadRequest_inactive => 400
  | Forbidden_insufficient_role => 403
  end.

Definition role_gate (v : role_variant) (r : UserRole) : bool :=
  match v, r with
  | student_only, STUDENT => true
  | teacher_or_admin, (TEACHER | ADMIN) => true
  | admin_only, ADMIN => true
  | any_active_verified, _ => true
  | _, _ => false
  end.

(** The account that a subject id denotes: the first one whose [_id] the
    subject id spells. *)
Definition lookup_subject (subject_id : string) (db : collection)
  : option document :=
  snd <$> list_find (λ d, ObjectId_call subject_id = Return (_id d)) db.

(** Resolve identity: decode the bearer token, then look the account up by
    the subject id. *)
Definition resolve_identity (settings : Settings) (now : Z) (token : bearer)
    (db : collection) : option UserModel.t :=
  match decode_token settings now token with
  | Raise _ => None
  | Return token_data =>
      subject_id ← td_id token_data;
      account ← lookup_subject subject_id db;
      Some (UserModel_call account)
  end.

Definition guard_chain (v : role_variant) (identity : option UserModel.t)
  : rejection + UserModel.t :=
  match identity with
  | None => inl Unauthorized
  | Some account =>
      if negb (UserModel.is_verified account
               || bool_decide (UserModel.role account = ADMIN))
      then inl Forbidden_unverified
      else if negb (bool_decide (UserModel.status account = ACTIVE))
      then inl BadRequest_inactive
      else if negb (role_gate v (UserModel.role account))
      then inl Forbidden_insufficient_role
      else inr account
  end.

(** * The remaining functions of the modules *)

(** ** models.py: the registration input and the public view *)

Record UserCreate := mkUserCreate {
  uc_email : string;
  uc_password : string;
  uc_full_name : string;
  uc_role : option UserRole
}.

Record EmailVerificationRequest := mkEmailVerificationRequest {
  evr_email : string
}.

Module UserResponse.
Record t := mk {
  id : string;
  email : string;
  full_name : string;
  role : UserRole;
  status : UserStatus;
  is_verified : bool
}.
End UserResponse.

(** The construction of a [UserResponse] from the dump of a [UserModel]:
    the keys that the response model does not declare are dropped. *)
Definition UserResponse_call (user : UserModel.t) : UserResponse.t :=
  UserResponse.mk (UserModel.id user) (UserModel.email user)
    (UserModel.full_name user) (UserModel.role user) (UserModel.status user)
    (UserModel.is_verified user).

(** [collection.insert_one(document)]: the document goes to the end of the
    natural order. *)
Definition insert_one (d : document) (coll : collection) : collection :=
  coll ++ [d].

(** The names bound at the top level of [verify_email.py] and of
    [routes.py]. *)
Definition verify_email_globals : list string :=
  ["secrets"; "datetime"; "timedelta"; "timezone"; "Optional"; "settings";
   "send_email"; "UserModel"; "UserStatus"; "generate_verification_token";
   "send_verification_email"; "store_verification_token";
   "verify_user_email"].

Definition routes_globals : list string :=
  ["APIRouter"; "Depends"; "HTTPException"; "status"; "BackgroundTasks";
   "AsyncIOMotorClient"; "Any"; "Optional"; "datetime"; "timezone";
   "ObjectId"; "settings"; "UserCreate"; "UserLogin"; "UserResponse";
   "Token"; "TokenData"; "PasswordResetRequest"; "PasswordResetConfirm";
   "EmailVerificationRequest"; "UserRole"; "UserStatus"; "UserModel";
   "hash_password"; "verify_password"; "get_database"; "get_current_user";
   "get_current_admin_user"; "get_current_teacher_or_admin_user";
   "get_current_student_user"; "get_current_active_user";
   "create_access_token"; "generate_verification_token";
   "send_verification_email"; "store_verification_token";
   "verify_user_email"; "generate_reset_password_token";
   "send_password_reset_email"; "store_reset_password_token";
   "reset_user_password"; "admin_required"; "teacher_or_admin_required";
   "student_required"; "active_user_required"; "router";
   "get_users_collection"; "register_user"; "verify_email_endpoint";
   "resend_verification_email_endpoint"; "login_for_access_token";
   "request_password_reset"; "confirm_password_reset";
   "protected_student_route"; "protected_teacher_route";
   "protected_admin_route"; "protected_any_active_route"].

(** A verification email handed to [BackgroundTasks.add_task]. *)
Inductive verification_task :=
| send_verification_email (user_email verification_token : string).

(** [calendar.timegm] of the time tuple of an instant given in
    microseconds: the whole second the instant lies in. *)
Definition timegm (microseconds : Z) : Z := microseconds / 1000000.

Section Remaining.
Variable settings : Settings.
Variable bcrypt : bcrypt_handler.

(** ** jwt_handler.py: [create_refresh_token] *)

Definition create_refresh_token (data : gmap string json)
    (expires_delta : option Z) (now : Z) : bearer :=
  let to_encode := data in
  let expire :=
    match expires_delta with
    | Some delta =>
        if decide (delta = 0)
        then now + minutes (REFRESH_TOKEN_EXPIRE_MINUTES settings)
        else now + delta
    | None => now + minutes (REFRESH_TOKEN_EXPIRE_MINUTES settings)
    end in
  let to_encode := <["exp" := JNum expire]> to_encode in
  jwt_encode to_encode (JWT_SECRET_KEY settings) (JWT_ALGORITHM settings).

(** ** jwt_handler.py: issuing below the second

    A [datetime] resolves to the microsecond, and so does a [timedelta].
    [jwt.encode] writes a [datetime] under [exp] as [timegm] of its time
    tuple, the whole second it lies in; [jwt.decode] compares that integer
    with the time stamp of its clock, so that of the instant of a decoding
    only its whole second counts.  [create_access_token_us] is
    [create_access_token] with its clock reading and its [expires_delta] in
    microseconds; a decoding at the instant [t] in microseconds is
    [decode_token] at [timegm t]. *)

Definition create_access_token_us (data : gmap string json)
    (expires_delta : option Z) (now : Z) : bearer :=
  let to_encode := data in
  let expire :=
    match expires_delta with
    | Some delta =>
        if decide (delta = 0)
        then now + 1000000 * minutes (ACCESS_TOKEN_EXPIRE_MINUTES settings)
        else now + delta
    | None => now + 1000000 * minutes (ACCESS_TOKEN_EXPIRE_MINUTES settings)
    end in
  let to_encode := <["exp" := JNum (timegm expire)]> to_encode in
  jwt_encode to_encode (JWT_SECRET_KEY settings) (JWT_ALGORITHM settings).

(** ** verify_email.py: [store_verification_token] *)

(** As in [store_reset_password_token], the filter is
    [{"_id": UserModel.Config.json_encoders[ObjectId](user_id)}] and any
    exception raised in the [try] block makes the function return
    [False]. *)
Definition store_verification_token (user_id token : string)
    (now now' : Z) (db : collection) : bool * collection :=
  let expires_at :=
    now + minutes (EMAIL_VERIFICATION_TOKEN_EXPIRE_MINUTES settings) in
  let attempt : py (UpdateResult * collection) :=
    _ ← load_global verify_email_globals "ObjectId";
    let key := UserModel.Config_json_encoders_ObjectId user_id in
    Return (update_one [Eq__id (BString key)]
              [Set_verification_token (Some token);
               Set_verification_token_expires_at (Some expires_at);
               Set_updated_at now'] db) in
  match attempt with
  | Return (result, db) => (0 <? modified_count result, db)
  | Raise _ => (false, db)
  end.

(** ** routes.py: registration and resending *)

(** [register_user]: [salt] is the salt that the hashing draws,
    [verification_token] the output of [generate_verification_token],
    [new_id] the [ObjectId] that the default factory of [UserModel.id]
    makes, [now] the clock reading of the expiry and [created], [updated]
    those of the two time stamps of the model. *)
Definition register_user (user_create : UserCreate)
    (salt verification_token : string) (new_id : ObjectId)
    (now created updated : Z) (db : collection)
  : py UserResponse.t * collection * list verification_task :=
  match find_one [Eq_email (uc_email user_create)] db with
  | Some existing_user =>
      (Raise (HTTPError {|
         status_code := 409;
         detail := "Email already registered.";
         headers := [] |}), db, [])
  | None =>
      let hashed_password :=
        hash_password bcrypt salt (uc_password user_create) in
      match load_global routes_globals "timedelta" with
      | Raise e => (Raise e, db, [])
      | Return _ =>
          let expires_at :=
            now + minutes (EMAIL_VERIFICATION_TOKEN_EXPIRE_MINUTES settings) in
          match uc_role user_create with
          | None =>
              (Raise (ValueError "role: input should be a valid UserRole"),
               db, [])
          | Some role =>
              let new_user_data := {|
                _id := new_id;
                email := uc_email user_create;
                hashed_password := hashed_password;
                full_name := uc_full_name user_create;
                role := role;
                status := PENDING_VERIFICATION;
                is_verified := false;
                verification_token := Some verification_token;
                verification_token_expires_at := Some expires_at;
                reset_password_token := None;
                reset_password_token_expires_at := None;
                created_at := created;
                updated_at := updated |} in
              let db := insert_one new_user_data db in
              (Return (UserResponse_call (UserModel_call new_user_data)), db,
               [send_verification_email (uc_email user_create)
                  verification_token])
          end
      end
  end.

(** [resend_verification_email_endpoint]: [new_verification_token] is the
    output of [generate_verification_token]. *)
Definition resend_verification_email_endpoint
    (request : EmailVerificationRequest) (new_verification_token : string)
    (now now' : Z) (db : collection)
  : py (list (string * string)) * collection * list verification_task :=
  match find_one [Eq_email (evr_email request)] db with
  | None =>
      (Raise (HTTPError {|
         status_code := 404;
         detail := "User not found.";
         headers := [] |}), db, [])
  | Some user_doc =>
      let user := UserModel_call user_doc in
      if UserModel.is_verified user then
        (Raise (HTTPError {|
           status_code := HTTP_400_BAD_REQUEST;
           detail := "Email already verified.";
           headers := [] |}), db, [])
      else
        let '(updated, db) :=
          store_verification_token (UserModel.id user)
            new_verification_token now now' db in
        if negb updated then
          (Raise (HTTPError {|
             status_code := HTTP_500_INTERNAL_SERVER_ERROR;
             detail := "Failed to update verification token.";
             headers := [] |}), db, [])
        else
          (Return [("message", "Verification email resent successfully.")],
           db,
           [send_verification_email (UserModel.email user)
              new_verification_token])
  end.
End Remaining.

(** ** Further concrete data *)

(** The token that a login of the verified student carries, issued at time
    2000. *)
Definition student_token : bearer :=
  create_access_token default_settings
    (claims "65a000000000000000000004" "c@x.com" STUDENT) None 2000.

(** Two pending accounts that hold one and the same verification token. *)
Definition first_twin_doc : document := {|
  _id := mkObjectId "65a00000000000000000000a";
  email := "t1@x.com";
  hashed_password := bcrypt_hash test_bcrypt test_salt "password123";
  full_name := "T1";
  role := STUDENT;
  status := PENDING_VERIFICATION;
  is_verified := false;
  verification_token := Some "shared";
  verification_token_expires_at := Some 5000;
  reset_password_token := None;
  reset_password_token_expires_at := None;
  created_at := 1000;
  updated_at := 1000
|}.

Definition second_twin_doc : document := {|
  _id := mkObjectId "65a00000000000000000000b";
  email := "t2@x.com";
  hashed_password := bcrypt_hash test_bcrypt test_salt "password456";
  full_name := "T2";
  role := STUDENT;
  status := INACTIVE;
  is_verified := false;
  verification_token := Some "shared";
  verification_token_expires_at := Some 5000;
  reset_password_token := None;
  reset_password_token_expires_at := None;
  created_at := 1000;
  updated_at := 1000
|}.

Definition twin_db : collection := [first_twin_doc; second_twin_doc].

(** A token signed under the configured key whose subject id is no
    [ObjectId] string. *)
Definition stray_subject_token : bearer :=
  create_access_token default_settings
    (claims "not-an-object-id" "c@x.com" STUDENT) None 2000.

(** ** Further vocabulary *)

(** The data to encode bring none of the registered claims that the
    library validates besides [exp]. *)
Definition no_registered_claims (data : gmap string json) : Prop :=
  Forall (λ k, data !! k = None) ["iss"; "sub"; "aud"; "nbf"; "iat"; "jti"].

#[global] Instance no_registered_claims_dec data :
  Decision (no_registered_claims data).
Proof. unfold no_registered_claims. apply _. Defined.

(** The role dependency of each variant, which the route puts after
    [get_current_active_user]. *)
Definition role_dependency (v : role_variant)
  : UserModel.t → py UserModel.t :=
  match v with
  | student_only => get_current_student_user
  | teacher_or_admin => get_current_teacher_or_admin_user
  | admin_only => get_current_admin_user
  | any_active_verified => Return
  end.

(** The stored [_id]s are in the form that [str] prints and [ObjectId]
    reads back. *)
Definition canonical_ids (db : collection) : Prop :=
  Forall (λ d, ObjectId_call (ObjectId_str (_id d)) = Return (_id d)) db.

#[global] Instance canonical_ids_dec db : Decision (canonical_ids db).
Proof. unfold canonical_ids. apply _. Defined.

(** The invariants of an account in the data model: a token field and its
    expiry field are both null or both set, and a verified account is not
    pending verification. *)
Definition account_invariant (d : document) : Prop :=
  (verification_token d = None ↔ verification_token_expires_at d = None) ∧
  (reset_password_token d = None ↔ reset_password_token_expires_at d = None) ∧
  (is_verified d = true → status d ≠ PENDING_VERIFICATION).

(** * Properties *)

(** ** The store *)

Section StoreFacts.
Implicit Types (db : collection) (d : document) (q : list condition).
Implicit Types (i j : nat).

Lemma find_one_Some q db d :
  find_one q db = Some d ↔
  ∃ i, list_find (λ d, matches q d = true) db = Some (i, d).
Proof.
  unfold find_one. split.
  - destruct (list_find _ db) as [[i d']|] eqn:E; simpl; [|done].
    intros [= <-]. by exists i.
  - intros [i ->]. done.
Qed.

Lemma find_one_None q db :
  find_one q db = None ↔ Forall (λ d, matches q d ≠ true) db.
Proof.
  unfold find_one. split; intros H.
  - destruct (list_find _ db) as [[i d]|] eqn:E; [done|].
    by apply list_find_None in E.
  - destruct (list_find _ db) as [[i d]|] eqn:E; [|done].
    apply list_find_Some in E as (Hi & Hm & _).
    by destruct (Forall_lookup_1 _ _ _ _ H Hi).
Qed.

Lemma primary_key_lookup db i j d d' :
  primary_key db → db !! i = Some d → db !! j = Some d' →
  _id d = _id d' → i = j.
Proof.
  intros Hkey Hi Hj Heq.
  apply (NoDup_lookup (_id <$> db) i j (_id d) Hkey);
    rewrite list_lookup_fmap.
  - by rewrite Hi.
  - rewrite Hj. simpl. by rewrite Heq.
Qed.

Lemma primary_key_insert db i d d' :
  primary_key db → db !! i = Some d → _id d' = _id d →
  primary_key (<[i := d']> db).
Proof.
  unfold primary_key. intros Hkey Hi Heq.
  rewrite list_fmap_insert, Heq, list_insert_id; [done|].
  by rewrite list_lookup_fmap, Hi.
Qed.

(** Under the primary key a lookup by [_id] returns the document that
    carries it, wherever it sits. *)
Lemma list_find_by_id db i d :
  primary_key db → db !! i = Some d →
  list_find (λ d', matches [Eq__id (BObjectId (_id d))] d' = true) db
  = Some (i, d).
Proof.
  intros Hkey Hi. apply list_find_Some. split_and!.
  - done.
  - simpl. by rewrite bool_decide_eq_true_2.
  - intros j d' Hj Hlt. simpl. rewrite andb_true_r.
    intros Heq%bool_decide_eq_true_1.
    assert (j = i) by eauto using primary_key_lookup. lia.
Qed.

Lemma find_one_by_id db i d :
  primary_key db → db !! i = Some d →
  find_one [Eq__id (BObjectId (_id d))] db = Some d.
Proof.
  intros. apply find_one_Some. exists i. by apply list_find_by_id.
Qed.

Lemma update_one_by_id db i d update :
  primary_key db → db !! i = Some d →
  snd (update_one [Eq__id (BObjectId (_id d))] update db)
  = <[i := apply_set update d]> db.
Proof.
  intros Hkey Hi. unfold update_one.
  by rewrite (list_find_by_id db i d Hkey Hi).
Qed.

Lemma outstanding_once_lookup field t db i j d d' :
  outstanding_once field t db →
  db !! i = Some d → db !! j = Some d' →
  field d = Some t → field d' = Some t → i = j.
Proof.
  unfold outstanding_once. revert i j.
  induction db as [|x db IH]; intros i j Hlen Hi Hj Hd Hd'; [done|].
  rewrite filter_cons in Hlen.
  destruct (decide (field x = Some t)) as [Hx|Hx]; simpl in Hlen.
  - assert (filter (λ d, field d = Some t) db = []) as Hnil
      by (apply length_zero_iff_nil; lia).
    assert (∀ k y, db !! k = Some y → field y ≠ Some t) as Hnone.
    { intros k y Hk Hy.
      assert (y ∈ filter (λ d, field d = Some t) db) as Hin.
      { apply list_elem_of_filter. split; [done|].
        by apply list_elem_of_lookup_2 in Hk. }
      rewrite Hnil in Hin. by apply not_elem_of_nil in Hin. }
    destruct i as [|i], j as [|j]; simpl in *; [done| | |].
    + by destruct (Hnone j d').
    + by destruct (Hnone i d).
    + by destruct (Hnone i d).
  - destruct i as [|i], j as [|j]; simpl in *; simplify_eq; [done..|].
    f_equal. eapply IH; eauto.
Qed.
End StoreFacts.

(** ** The ephemeral secret-token life cycle *)

Section Consume.
Implicit Types (db : collection) (d : document) (t : string).
Implicit Types (i j : nat).

Lemma verify_user_email_found db t now now' i d :
  primary_key db →
  list_find (λ d, matches [Eq_verification_token t;
                           Gt_verification_token_expires_at now] d = true) db
  = Some (i, d) →
  verify_user_email t now now' db
  = (Some (UserModel_call (verified_doc now' d)),
     <[i := verified_doc now' d]> db).
Proof.
  intros Hkey Hfind. unfold verify_user_email, find_one at 1.
  rewrite Hfind. simpl.
  apply list_find_Some in Hfind as (Hi & _ & _).
  pose proof (update_one_by_id db i d
    [Set_is_verified true; Set_status ACTIVE; Set_verification_token None;
     Set_verification_token_expires_at None; Set_updated_at now']
    Hkey Hi) as Hupd.
  destruct (update_one _ _ db) as [res db1]. simpl in Hupd. subst db1.
  fold (verified_doc now' d).
  assert (primary_key (<[i := verified_doc now' d]> db)) as Hkey'
    by (by eapply primary_key_insert).
  assert ((<[i := verified_doc now' d]> db) !! i = Some (verified_doc now' d))
    as Hi' by (apply list_lookup_insert_eq; by eapply lookup_lt_Some).
  pose proof (find_one_by_id _ i _ Hkey' Hi') as Hone.
  unfold verified_doc in *. simpl in *. by rewrite Hone.
Qed.

Lemma reset_user_password_found db t new_password now now' i d :
  primary_key db →
  list_find (λ d, matches [Eq_reset_password_token t;
                           Gt_reset_password_token_expires_at now] d = true) db
  = Some (i, d) →
  reset_user_password t new_password now now' db
  = (Some (UserModel_call (reset_doc new_password now' d)),
     <[i := reset_doc new_password now' d]> db).
Proof.
  intros Hkey Hfind. unfold reset_user_password, find_one at 1.
  rewrite Hfind. simpl.
  apply list_find_Some in Hfind as (Hi & _ & _).
  pose proof (update_one_by_id db i d
    [Set_hashed_password (hash_password_placeholder new_password);
     Set_reset_password_token None;
     Set_reset_password_token_expires_at None; Set_updated_at now']
    Hkey Hi) as Hupd.
  destruct (update_one _ _ db) as [res db1]. simpl in Hupd. subst db1.
  fold (reset_doc new_password now' d).
  assert (primary_key (<[i := reset_doc new_password now' d]> db)) as Hkey'
    by (by eapply primary_key_insert).
  assert ((<[i := reset_doc new_password now' d]> db) !! i
          = Some (reset_doc new_password now' d))
    as Hi' by (apply list_lookup_insert_eq; by eapply lookup_lt_Some).
  pose proof (find_one_by_id _ i _ Hkey' Hi') as Hone.
  unfold reset_doc in *. simpl in *. by rewrite Hone.
Qed.

(** A successful call is a call whose lookup found a document. *)
Lemma verify_user_email_success db t now now' u db1 :
  verify_user_email t now now' db = (Some u, db1) →
  ∃ i d, list_find (λ d, matches [Eq_verification_token t;
                                 Gt_verification_token_expires_at now] d
                         = true) db = Some (i, d).
Proof.
  unfold verify_user_email, find_one at 1.
  destruct (list_find _ db) as [[i d]|]; simpl; [eauto|done].
Qed.

Lemma reset_user_password_success db t new_password now now' u db1 :
  reset_user_password t new_password now now' db = (Some u, db1) →
  ∃ i d, list_find (λ d, matches [Eq_reset_password_token t;
                                 Gt_reset_password_token_expires_at now] d
                         = true) db = Some (i, d).
Proof.
  unfold reset_user_password, find_one at 1.
  destruct (list_find _ db) as [[i d]|]; simpl; [eauto|done].
Qed.

(** The primary key survives a consume. *)
Lemma verify_user_email_primary_key db t now now' :
  primary_key db → primary_key (verify_user_email t now now' db).2.
Proof.
  intros Hkey.
  destruct (list_find (λ d, matches [Eq_verification_token t;
                                     Gt_verification_token_expires_at now] d
                            = true) db) as [[i d]|] eqn:E.
  - rewrite (verify_user_email_found _ _ _ _ _ _ Hkey E). simpl.
    apply list_find_Some in E as (Hi & _ & _).
    by eapply primary_key_insert.
  - unfold verify_user_email, find_one. by rewrite E.
Qed.

Lemma reset_user_password_primary_key db t new_password now now' :
  primary_key db →
  primary_key (reset_user_password t new_password now now' db).2.
Proof.
  intros Hkey.
  destruct (list_find (λ d, matches [Eq_reset_password_token t;
                                     Gt_reset_password_token_expires_at now] d
                            = true) db) as [[i d]|] eqn:E.
  - rewrite (reset_user_password_found _ _ _ _ _ _ _ Hkey E). simpl.
    apply list_find_Some in E as (Hi & _ & _).
    by eapply primary_key_insert.
  - unfold reset_user_password, find_one. by rewrite E.
Qed.

Lemma matches_verification_query t now d :
  matches [Eq_verification_token t; Gt_verification_token_expires_at now] d
  = true ↔
  verification_token d = Some t ∧
  ∃ e, verification_token_expires_at d = Some e ∧ now < e.
Proof.
  simpl. rewrite andb_true_r, andb_true_iff, bool_decide_eq_true.
  destruct (verification_token_expires_at d) as [e|]; split.
  - intros [Ht Hlt%Z.ltb_lt]. eauto.
  - intros [Ht (e' & [= <-] & Hlt)]. split; [done|by apply Z.ltb_lt].
  - by intros [_ ?].
  - by intros [_ (e & ? & _)].
Qed.

Lemma matches_reset_query t now d :
  matches [Eq_reset_password_token t; Gt_reset_password_token_expires_at now]
    d = true ↔
  reset_password_token d = Some t ∧
  ∃ e, reset_password_token_expires_at d = Some e ∧ now < e.
Proof.
  simpl. rewrite andb_true_r, andb_true_iff, bool_decide_eq_true.
  destruct (reset_password_token_expires_at d) as [e|]; split.
  - intros [Ht Hlt%Z.ltb_lt]. eauto.
  - intros [Ht (e' & [= <-] & Hlt)]. split; [done|by apply Z.ltb_lt].
  - by intros [_ ?].
  - by intros [_ (e & ? & _)].
Qed.
End Consume.

(** C6, amended.  In a collection keyed by [_id] in which the token is
    outstanding on at most one account: if consuming a verification token
    succeeds, the account is left verified and active with the token and its
    expiry cleared, and a second consume of the same token in the resulting
    state finds nothing: the code returns [None], the endpoint answers 400
    "Invalid or expired verification token.", and the collection, hence the
    account's verified flag and status, is left as it was. *)
Theorem C6_verification_token_single_use
    (db db1 : collection) (t : string) (now1 now1' now2 now2' : Z)
    (u : UserModel.t) :
  primary_key db →
  outstanding_once verification_token t db →
  verify_user_email t now1 now1' db = (Some u, db1) →
  UserModel.is_verified u = true ∧
  UserModel.status u = ACTIVE ∧
  UserModel.verification_token u = None ∧
  UserModel.verification_token_expires_at u = None ∧
  verify_user_email t now2 now2' db1 = (None, db1) ∧
  verify_email_endpoint t now2 now2' db1
  = (Raise (HTTPError {| status_code := HTTP_400_BAD_REQUEST;
                         detail := "Invalid or expired verification token.";
                         headers := [] |}), db1).
Proof.
  intros Hkey Honce Hfirst.
  destruct (verify_user_email_success _ _ _ _ _ _ Hfirst) as (i & d & Hfind).
  rewrite (verify_user_email_found _ _ _ _ _ _ Hkey Hfind) in Hfirst.
  injection Hfirst as <- <-.
  apply list_find_Some in Hfind as (Hi & Hm & _).
  apply matches_verification_query in Hm as [Htok _].
  assert (verify_user_email t now2 now2' (<[i := verified_doc now1' d]> db)
          = (None, <[i := verified_doc now1' d]> db)) as Hsecond.
  { unfold verify_user_email.
    assert (find_one [Eq_verification_token t;
                      Gt_verification_token_expires_at now2]
              (<[i := verified_doc now1' d]> db) = None) as ->; [|done].
    apply find_one_None, Forall_lookup. intros j y Hj Hy.
    apply matches_verification_query in Hy as [Hy _].
    apply list_lookup_insert_Some in Hj as [(-> & <- & _)|(Hne & Hj)].
    - done.
    - destruct Hne. eauto using outstanding_once_lookup. }
  split_and!; try done.
  unfold verify_email_endpoint. by rewrite Hsecond.
Qed.

(** C6, at the pending student of the sample collection. *)
Lemma C6_verification_token_single_use_witness :
  verify_user_email "vtok" 3000 3001 (snd (verify_user_email "vtok" 2000 2001 test_db))
  = (None, snd (verify_user_email "vtok" 2000 2001 test_db)).
Proof.
  eapply (C6_verification_token_single_use test_db _ "vtok" 2000 2001 3000 3001).
  - compute_done.
  - compute_done.
  - vm_compute. reflexivity.
Defined.

(** C6, as stated for every state, fails: where two accounts hold the
    same token the first consume verifies the first of them, and the second
    consume of the same token in the resulting state succeeds again, on the
    other account, whose verified flag and status it changes. *)
Lemma C6_shared_token_consumed_twice :
  let first := verify_user_email "shared" 2000 2001 twin_db in
  let second := verify_user_email "shared" 3000 3001 first.2 in
  primary_key twin_db ∧
  UserModel.email <$> first.1 = Some "t1@x.com" ∧
  UserModel.email <$> second.1 = Some "t2@x.com" ∧
  response_status HTTP_200_OK
    (verify_email_endpoint "shared" 3000 3001 first.2).1 = 200 ∧
  find_one [Eq_email "t2@x.com"] first.2 = Some second_twin_doc ∧
  find_one [Eq_email "t2@x.com"] second.2
  = Some (verified_doc 3001 second_twin_doc).
Proof. split; [compute_done|]. vm_compute. done. Qed.

(** C9, amended.  In a collection keyed by [_id] in which no other account
    holds the token: an account whose stored verification token equals the
    supplied one
    and whose stored expiry lies strictly in the future is set to
    [is_verified = true] and [status = active] by a consume, whatever its
    status was before: the test on the account involves neither its status
    nor its verified flag.  The collection is keyed by [_id] and the token is
    outstanding on that account only. *)
Theorem C9_consume_activates_any_status
    (db : collection) (t : string) (now now' e : Z) (d : document) :
  primary_key db →
  outstanding_once verification_token t db →
  d ∈ db →
  verification_token d = Some t →
  verification_token_expires_at d = Some e →
  now < e →
  ∃ u db1 d1,
    verify_user_email t now now' db = (Some u, db1) ∧
    UserModel.id u = ObjectId_str (_id d) ∧
    UserModel.is_verified u = true ∧
    UserModel.status u = ACTIVE ∧
    find_one [Eq__id (BObjectId (_id d))] db1 = Some d1 ∧
    is_verified d1 = true ∧
    status d1 = ACTIVE.
Proof.
  intros Hkey Honce [i Hi]%list_elem_of_lookup Htok Hexp Hlt.
  assert (list_find (λ d, matches [Eq_verification_token t;
                                   Gt_verification_token_expires_at now] d
                          = true) db = Some (i, d)) as Hfind.
  { apply list_find_Some. split_and!; [done| |].
    - apply matches_verification_query. eauto.
    - intros j y Hj Hji [Hy _]%matches_verification_query.
      assert (j = i) by eauto using outstanding_once_lookup. lia. }
  exists (UserModel_call (verified_doc now' d)),
         (<[i := verified_doc now' d]> db), (verified_doc now' d).
  split_and!; try done.
  - by apply verify_user_email_found.
  - change (_id d) with (_id (verified_doc now' d)).
    apply (find_one_by_id _ i).
    + by eapply primary_key_insert.
    + apply list_lookup_insert_eq. by eapply lookup_lt_Some.
Qed.

(** C9, at an account whose status is [inactive]. *)
Lemma C9_consume_activates_any_status_witness :
  status inactive_doc = INACTIVE ∧
  ∃ u db1 d1,
    verify_user_email "vtok3" 2000 2001 test_db = (Some u, db1) ∧
    UserModel.id u = ObjectId_str (_id inactive_doc) ∧
    UserModel.is_verified u = true ∧
    UserModel.status u = ACTIVE ∧
    find_one [Eq__id (BObjectId (_id inactive_doc))] db1 = Some d1 ∧
    is_verified d1 = true ∧
    status d1 = ACTIVE.
Proof.
  split; [reflexivity|].
  apply (C9_consume_activates_any_status test_db "vtok3" 2000 2001 5000
           inactive_doc).
  - compute_done.
  - compute_done.
  - compute_done.
  - reflexivity.
  - reflexivity.
  - lia.
Defined.

(** C9, as stated for every account that holds the token, fails: of two
    accounts that hold it unexpired the consume takes the first, and the
    second, which meets every condition, stays unverified and inactive. *)
Lemma C9_second_holder_not_activated :
  second_twin_doc ∈ twin_db ∧
  verification_token second_twin_doc = Some "shared" ∧
  verification_token_expires_at second_twin_doc = Some 5000 ∧
  2000 < 5000 ∧
  primary_key twin_db ∧
  UserModel.email <$> (verify_user_email "shared" 2000 2001 twin_db).1
  = Some "t1@x.com" ∧
  find_one [Eq__id (BObjectId (_id second_twin_doc))]
    (verify_user_email "shared" 2000 2001 twin_db).2
  = Some second_twin_doc ∧
  is_verified second_twin_doc = false ∧
  status second_twin_doc = INACTIVE.
Proof.
  split_and!; try reflexivity; try lia; try compute_done.
Qed.

(** C10. A successful password reset rewrites one document, the one that
    held the token, and in it only [hashed_password],
    [reset_password_token], [reset_password_token_expires_at] and
    [updated_at]; the nine other fields keep their values, whatever the
    account's verification state and status, and every other document of the
    collection is left as it was. *)
Theorem C10_reset_frame
    (db db1 : collection) (t new_password : string) (now now' : Z)
    (u : UserModel.t) :
  primary_key db →
  reset_user_password t new_password now now' db = (Some u, db1) →
  ∃ (i : nat) (d d1 : document),
    db !! i = Some d ∧
    reset_password_token d = Some t ∧
    db1 = <[i := d1]> db ∧
    u = UserModel_call d1 ∧
    (* what is written *)
    hashed_password d1 = hash_password_placeholder new_password ∧
    reset_password_token d1 = None ∧
    reset_password_token_expires_at d1 = None ∧
    updated_at d1 = now' ∧
    (* what is kept *)
    _id d1 = _id d ∧
    email d1 = email d ∧
    full_name d1 = full_name d ∧
    role d1 = role d ∧
    status d1 = status d ∧
    is_verified d1 = is_verified d ∧
    verification_token d1 = verification_token d ∧
    verification_token_expires_at d1 = verification_token_expires_at d ∧
    created_at d1 = created_at d ∧
    (* the other accounts *)
    length db1 = length db ∧
    ∀ j : nat, j ≠ i → db1 !! j = db !! j.
Proof.
  intros Hkey Hreset.
  destruct (reset_user_password_success _ _ _ _ _ _ _ Hreset)
    as (i & d & Hfind).
  rewrite (reset_user_password_found _ _ _ _ _ _ _ Hkey Hfind) in Hreset.
  injection Hreset as <- <-.
  apply list_find_Some in Hfind as (Hi & Hm & _).
  apply matches_reset_query in Hm as [Htok _].
  exists i, d, (reset_doc new_password now' d).
  split_and!; try done.
  - apply length_insert.
  - intros j Hne. by apply list_lookup_insert_ne.
Qed.

(** C10, at an account that is neither verified nor active. *)
Lemma C10_reset_frame_witness :
  is_verified student_doc = false ∧
  status student_doc = PENDING_VERIFICATION ∧
  ∃ (i : nat) (d d1 : document),
    test_db !! i = Some d ∧
    reset_password_token d = Some "rtok" ∧
    snd (reset_user_password "rtok" "newpassword1" 2000 2001 test_db)
    = <[i := d1]> test_db ∧
    is_verified d1 = is_verified d ∧
    status d1 = status d.
Proof.
  split; [reflexivity|]. split; [reflexivity|].
  destruct (C10_reset_frame test_db
              (snd (reset_user_password "rtok" "newpassword1" 2000 2001 test_db))
              "rtok" "newpassword1" 2000 2001
              (UserModel_call (reset_doc "newpassword1" 2001 student_doc)))
    as (i & d & d1 & H).
  - compute_done.
  - vm_compute. reflexivity.
  - exists i, d, d1. repeat split; apply H.
Defined.

(** ** The token codec *)

Section Codec.
Variable settings : Settings.

Lemma jwt_decode_own_token payload now :
  jwt_decode now
    (jwt_encode payload (JWT_SECRET_KEY settings) (JWT_ALGORITHM settings))
    (JWT_SECRET_KEY settings) [JWT_ALGORITHM settings]
  = match payload !! "exp" with
    | None => Return payload
    | Some (JNum exp) =>
        if exp <=? now then Raise ExpiredSignatureError else Return payload
    | Some _ => Raise DecodeError
    end.
Proof.
  unfold jwt_decode, jwt_encode.
  rewrite (bool_decide_eq_true_2 (_ ∈ _)) by apply list_elem_of_singleton, eq_refl.
  by rewrite (bool_decide_eq_true_2 (_ = _)).
Qed.

Lemma decode_token_signed_claims id email role exp now :
  decode_token settings now
    (jwt_encode (<["exp" := JNum exp]> (claims id email role))
       (JWT_SECRET_KEY settings) (JWT_ALGORITHM settings))
  = if exp <=? now then Raise (HTTPError expired_exception)
    else Return {| td_email := Some email; td_role := Some role;
                   td_id := Some id |}.
Proof.
  unfold decode_token, decode_token_try.
  rewrite jwt_decode_own_token, lookup_insert_eq.
  destruct (exp <=? now); simpl; [done|].
  unfold dict_get, claims. simplify_map_eq. by destruct role.
Qed.

Lemma decode_token_other_key now key alg payload :
  key ≠ JWT_SECRET_KEY settings →
  decode_token settings now (Signed key alg payload)
  = Raise (HTTPError credentials_exception).
Proof.
  intros Hkey. unfold decode_token, decode_token_try, jwt_decode.
  destruct (bool_decide (alg ∈ _)); simpl; [|done].
  by rewrite bool_decide_eq_false_2.
Qed.
End Codec.

Lemma timegm_whole_second (seconds : Z) : timegm (1000000 * seconds) = seconds.
Proof. unfold timegm. by rewrite Z.mul_comm, Z.div_mul. Qed.

Lemma timegm_mono (t t' : Z) : t ≤ t' → timegm t ≤ timegm t'.
Proof. intros Hle. unfold timegm. by apply Z.div_le_mono. Qed.

(** On the whole seconds [create_access_token_us] is
    [create_access_token]. *)
Lemma create_access_token_whole_seconds settings data expires_delta now :
  create_access_token_us settings data
    ((λ delta, 1000000 * delta) <$> expires_delta) (1000000 * now)
  = create_access_token settings data expires_delta now.
Proof.
  unfold create_access_token_us, create_access_token.
  destruct expires_delta as [delta|]; simpl.
  - destruct (decide (delta = 0)) as [->|Hne].
    + simpl. by rewrite <- Z.mul_add_distr_l, timegm_whole_second.
    + rewrite decide_False by lia.
      by rewrite <- Z.mul_add_distr_l, timegm_whole_second.
  - by rewrite <- Z.mul_add_distr_l, timegm_whole_second.
Qed.

(** C7, as stated for every positive TTL, fails below the second: [exp] is
    the whole second of the expiry, so a token with a lifetime of half a
    second issued at 1000.2 s carries [exp = 1000] and is answered "Token has
    expired" at 1000.3 s, before its lifetime has passed. *)
Lemma C7_subsecond_ttl_expired_early :
  0 < 500000 ∧
  1000300000 < 1000200000 + 500000 ∧
  decode_token default_settings (timegm 1000300000)
    (create_access_token_us default_settings
       (claims "65a000000000000000000002" "a@x.com" STUDENT)
       (Some 500000) 1000200000)
  = Raise (HTTPError expired_exception).
Proof. split_and!; [lia|lia|]. vm_compute. reflexivity. Qed.

(** C7, amended.  Instants and lifetimes in microseconds.  For a claims set
    [{id, email, role}] and a positive TTL, the token issued at [t0] decodes
    to exactly that id, email and role at every instant whose whole second
    comes before the whole second of [t0 + ttl], which is what [exp] holds;
    it decodes to the expired outcome (401 "Token has expired") at every
    instant from that whole second on, so at every instant from [t0 + ttl]
    on; and a token signed under any other secret decodes to an error (401
    "Could not validate credentials"), never to claims. *)
Theorem C7_issue_then_decode
    (settings : Settings) (id email : string) (role : UserRole)
    (ttl t0 t : Z) (key alg : string) (payload : gmap string json) :
  0 < ttl →
  key ≠ JWT_SECRET_KEY settings →
  let token :=
    create_access_token_us settings (claims id email role) (Some ttl) t0 in
  (timegm t < timegm (t0 + ttl) →
   decode_token settings (timegm t) token
   = Return {| td_email := Some email; td_role := Some role;
               td_id := Some id |}) ∧
  (timegm (t0 + ttl) ≤ timegm t →
   decode_token settings (timegm t) token
   = Raise (HTTPError expired_exception)) ∧
  (t0 + ttl ≤ t →
   decode_token settings (timegm t) token
   = Raise (HTTPError expired_exception)) ∧
  decode_token settings (timegm t) (Signed key alg payload)
  = Raise (HTTPError credentials_exception).
Proof.
  intros Httl Hkey token. subst token.
  unfold create_access_token_us. rewrite decide_False by lia.
  rewrite decode_token_signed_claims. split_and!.
  - intros Hlt. by rewrite (proj2 (Z.leb_gt _ _)) by lia.
  - intros Hle. by rewrite (proj2 (Z.leb_le _ _)) by lia.
  - intros Hle%timegm_mono. by rewrite (proj2 (Z.leb_le _ _)) by lia.
  - by apply decode_token_other_key.
Qed.

(** C7 amended, for a token of 1.5 seconds issued at 1000.2 s, which
    carries [exp = 1001]: decoded at 1000.9 s and at 1001.0 s. *)
Lemma C7_issue_then_decode_witness :
  let token :=
    create_access_token_us default_settings
      (claims "65a000000000000000000002" "a@x.com" STUDENT)
      (Some 1500000) 1000200000 in
  decode_token default_settings (timegm 1000900000) token
  = Return {| td_email := Some "a@x.com"; td_role := Some STUDENT;
              td_id := Some "65a000000000000000000002" |} ∧
  decode_token default_settings (timegm 1001000000) token
  = Raise (HTTPError expired_exception) ∧
  decode_token default_settings (timegm 1000900000)
    (Signed "another secret" "HS256"
       (claims "65a000000000000000000002" "a@x.com" STUDENT))
  = Raise (HTTPError credentials_exception).
Proof.
  assert (0 < 1500000) as Httl by lia.
  assert ("another secret" ≠ JWT_SECRET_KEY default_settings) as Hkey
    by (vm_compute; discriminate).
  split_and!.
  - apply (proj1 (C7_issue_then_decode default_settings _ _ _ 1500000
                    1000200000 1000900000 "another secret" "HS256" ∅
                    Httl Hkey)).
    vm_compute. reflexivity.
  - apply (proj1 (proj2 (C7_issue_then_decode default_settings _ _ _ 1500000
                           1000200000 1001000000 "another secret" "HS256" ∅
                           Httl Hkey))).
    vm_compute. discriminate.
  - apply (C7_issue_then_decode default_settings
             "65a000000000000000000002" "a@x.com" STUDENT 1500000 1000200000
             1000900000 "another secret" "HS256" _ Httl Hkey).
Defined.

(** C4, as stated, fails: a string that is no token at all
    (Malformed/InvalidSignature) and a token that verifies but carries no
    role (MissingRequiredClaim) are two different failure modes and get the
    very same response. *)
Lemma C4_missing_claim_indistinguishable :
  let malformed := Garbage "not.a.token" in
  let missing :=
    create_access_token default_settings
      (<["email" := JStr "a@x.com"]>
         (<["id" := JStr "65a000000000000000000002"]> ∅)) None 1000 in
  failure_mode_of default_settings 2000 malformed
  = Some Malformed_or_InvalidSignature ∧
  failure_mode_of default_settings 2000 missing = Some MissingRequiredClaim ∧
  decode_token default_settings 2000 malformed
  = decode_token default_settings 2000 missing.
Proof. vm_compute. done. Qed.

(** C4, amended.  Decoding maps the expired mode to 401 "Token has expired"
    and both the malformed or badly signed mode and the missing-claim mode to
    one and the same 401 "Could not validate credentials"; the expired
    outcome differs from that of the two others. *)
Theorem C4_failure_outcomes
    (settings : Settings) (now : Z) (token : bearer) (m : failure_mode) :
  failure_mode_of settings now token = Some m →
  decode_token settings now token = Raise (HTTPError (failure_outcome m)) ∧
  failure_outcome Malformed_or_InvalidSignature
  = failure_outcome MissingRequiredClaim ∧
  failure_outcome Expired ≠ failure_outcome Malformed_or_InvalidSignature.
Proof.
  intros Hmode. split_and!; [|done|done].
  unfold failure_mode_of in Hmode. unfold decode_token, decode_token_try.
  destruct (jwt_decode now token _ _) as [payload|e]; simpl.
  - destruct (dict_get payload "id"), (dict_get payload "email"),
      (dict_get payload "role"); by simplify_eq.
  - destruct e; by simplify_eq.
Qed.

(** C4 amended, at a token that verifies but carries no role. *)
Lemma C4_failure_outcomes_witness :
  decode_token default_settings 2000
    (create_access_token default_settings
       (<["email" := JStr "a@x.com"]>
          (<["id" := JStr "65a000000000000000000002"]> ∅)) None 1000)
  = Raise (HTTPError credentials_exception).
Proof.
  apply (C4_failure_outcomes default_settings 2000 _ MissingRequiredClaim).
  vm_compute. reflexivity.
Defined.

(** ** Password verification *)

(** C5, as stated, fails: on a stored string that is no bcrypt digest
    [verify_password] raises, it does not return [False]. *)
Lemma C5_verify_password_raises :
  bcrypt_identify "not-a-digest" = false ∧
  verify_password test_bcrypt "password123" "not-a-digest"
  = Raise UnknownHashError.
Proof. vm_compute. done. Qed.

(** C5, amended.  For every plaintext and every stored string, whatever
    the bcrypt handler: on a string that begins with one of the bcrypt
    identifiers [verify_password] yields what the handler's own verification
    yields; a string that begins with none of them makes [verify_password]
    raise [UnknownHashError] instead of returning [False]. *)
Theorem C5_verify_password_outcome
    (bcrypt : bcrypt_handler) (p d : string) :
  ((∃ ident, ident ∈ bcrypt_ident_values ∧ String.prefix ident d = true) →
   verify_password bcrypt p d = bcrypt_verify bcrypt p d) ∧
  ((∀ ident, ident ∈ bcrypt_ident_values → String.prefix ident d = false) →
   verify_password bcrypt p d = Raise UnknownHashError).
Proof.
  unfold verify_password, pwd_context_verify, bcrypt_identify. split.
  - intros (ident & Hin%list_elem_of_In & Hpre).
    assert (existsb (λ ident, String.prefix ident d) bcrypt_ident_values
            = true) as ->; [|done].
    apply existsb_exists. eauto.
  - intros Hnone.
    destruct (existsb _ bcrypt_ident_values) eqn:E; [|done].
    apply existsb_exists in E as (ident & Hin%list_elem_of_In & Hpre).
    by rewrite Hnone in Hpre.
Qed.

(** C5 amended, at a digest that the stand-in handler accepts and at the
    placeholder digest of the reset path. *)
Lemma C5_verify_password_outcome_witness :
  verify_password test_bcrypt "password123" (hashed_password admin_doc)
  = Return true ∧
  verify_password test_bcrypt "newpassword1" "hashed_newpassword1"
  = Raise UnknownHashError.
Proof.
  split.
  - rewrite (proj1 (C5_verify_password_outcome test_bcrypt "password123"
                      (hashed_password admin_doc))).
    + vm_compute. reflexivity.
    + exists "$2b$". split; [compute_done|reflexivity].
  - apply (proj2 (C5_verify_password_outcome test_bcrypt "newpassword1"
                    "hashed_newpassword1")).
    intros ident Hin. unfold bcrypt_ident_values in Hin.
    repeat (apply elem_of_cons in Hin as [->|Hin]; [reflexivity|]).
    by apply not_elem_of_nil in Hin.
Defined.

(** ** The guard chain *)

Section GuardChain.
Variable settings : Settings.

Lemma decode_token_raises now token e :
  decode_token settings now token = Raise e →
  e = HTTPError credentials_exception ∨ e = HTTPError expired_exception.
Proof.
  unfold decode_token.
  destruct (decode_token_try settings now token) as [td|e']; [done|].
  destruct e'; simpl; intros [= <-]; auto.
Qed.

Lemma find_one_subject_id subject_id oid db :
  ObjectId_call subject_id = Return oid →
  find_one [Eq__id (BObjectId oid)] db
  = lookup_subject subject_id db.
Proof.
  intros Hoid. unfold find_one, lookup_subject. f_equal.
  apply list_find_ext. intros d. simpl.
  rewrite Hoid, andb_true_r, bool_decide_eq_true.
  split; [by intros ->|by intros [= ->]].
Qed.
End GuardChain.

(** For a token whose subject id, if it decodes, is a well-formed
    ObjectId string, as the ids that login signs are, every protected route
    runs the checks in the order of the specification: resolve identity (a
    decode failure or an unknown subject id is answered 401), verified gate
    (an unverified non-admin is answered 403 "Account not verified"), active
    gate (a status other than active is answered 400), role gate of the route
    (a role mismatch is answered 403); the first check that fails determines
    the response, and when none fails the route yields the account. *)
Theorem guard_chain_order
    (settings : Settings) (v : role_variant) (now : Z) (token : bearer)
    (db : collection) :
  (∀ token_data subject_id,
     decode_token settings now token = Return token_data →
     td_id token_data = Some subject_id →
     ∃ oid, ObjectId_call subject_id = Return oid) →
  match guard_chain v (resolve_identity settings now token db) with
  | inr account => protected_route settings v now token db = Return account
  | inl r =>
      ∃ e, protected_route settings v now token db = Raise (HTTPError e) ∧
           status_code e = rejection_status r ∧
           (e = unverified_exception ↔ r = Forbidden_unverified)
  end.
Proof.
  intros Hid.
  assert (∀ rest : UserModel.t → py UserModel.t,
    (current_user ← get_current_user settings now token db;
     current_user ← get_current_active_user current_user;
     rest current_user)
    = protected_any_active_route settings now token db ≫= rest) as Hbind.
  { intros rest. unfold protected_any_active_route.
    by destruct (get_current_user settings now token db). }
  assert (
    match guard_chain any_active_verified
            (resolve_identity settings now token db) with
    | inr account =>
        protected_any_active_route settings now token db = Return account
    | inl r =>
        r ≠ Forbidden_insufficient_role ∧
        ∃ e, protected_any_active_route settings now token db
             = Raise (HTTPError e) ∧
             status_code e = rejection_status r ∧
             (e = unverified_exception ↔ r = Forbidden_unverified)
    end) as Hcommon.
  { unfold protected_any_active_route, get_current_user, resolve_identity.
    destruct (decode_token settings now token) as [token_data|e0] eqn:Hdec.
    - simpl. destruct (td_id token_data) as [subject_id|] eqn:Hsub; simpl.
      + destruct (Hid token_data subject_id eq_refl Hsub) as [oid Hoid].
        rewrite Hoid. simpl.
        rewrite (find_one_subject_id subject_id oid db Hoid).
        destruct (lookup_subject subject_id db)
          as [[oid' em hp fn r st ver vt ve rt re c up]|]; simpl.
        * destruct ver, r, st; simpl;
            first [ reflexivity
                  | split; [done|]; eexists; split_and!;
                      [reflexivity|reflexivity|split; intros; discriminate]
                  | split; [done|]; eexists; split_and!;
                      [reflexivity|reflexivity|done] ].
        * split; [done|]. eexists. split_and!; [reflexivity|reflexivity|].
          split; intros; discriminate.
      + split; [done|]. eexists. split_and!; [reflexivity|reflexivity|].
        split; intros; discriminate.
    - simpl. split; [done|].
      destruct (decode_token_raises settings now token e0 Hdec) as [-> | ->];
        eexists; (split_and!; [reflexivity|reflexivity|]);
        split; intros; discriminate. }
  pose (gate := λ v : role_variant,
    match v with
    | student_only => get_current_student_user
    | teacher_or_admin => get_current_teacher_or_admin_user
    | admin_only => get_current_admin_user
    | any_active_verified => Return
    end).
  assert (protected_route settings v now token db
          = protected_any_active_route settings now token db ≫= gate v)
    as ->.
  { destruct v; simpl;
      unfold protected_student_route, protected_teacher_route,
        protected_admin_route; rewrite ?Hbind; try done.
    by destruct (protected_any_active_route settings now token db). }
  destruct (resolve_identity settings now token db) as [account|];
    simpl in Hcommon |- *.
  - destruct (negb (UserModel.is_verified account || _)).
    { destruct Hcommon as [_ (e & -> & ?)]. simpl. eauto. }
    destruct (negb (bool_decide (UserModel.status account = ACTIVE))).
    { destruct Hcommon as [_ (e & -> & ?)]. simpl. eauto. }
    simpl in Hcommon. rewrite Hcommon. simpl.
    destruct v, (UserModel.role account) eqn:Hrole; simpl;
      unfold get_current_student_user, get_current_teacher_or_admin_user,
        get_current_admin_user; rewrite ?Hrole;
      simpl;
      first [ reflexivity
            | eexists; split_and!;
                [reflexivity|reflexivity|split; intros; discriminate] ].
  - destruct Hcommon as [_ (e & -> & ?)]. simpl. eauto.
Qed.

(** At the token of a verified teacher whose account is inactive, on the
    admin-only route: the active gate answers before the role gate. *)
Lemma guard_chain_order_teacher :
  match guard_chain admin_only
          (resolve_identity default_settings 2000 teacher_token test_db) with
  | inr account =>
      protected_route default_settings admin_only 2000 teacher_token test_db
      = Return account
  | inl r =>
      ∃ e, protected_route default_settings admin_only 2000 teacher_token
             test_db = Raise (HTTPError e) ∧
           status_code e = rejection_status r ∧
           (e = unverified_exception ↔ r = Forbidden_unverified)
  end.
Proof.
  apply guard_chain_order.
  intros token_data subject_id Hdec Hsub.
  vm_compute in Hdec. injection Hdec as <-.
  injection Hsub as <-. eexists. vm_compute. reflexivity.
Defined.

(** C8: the code at a bearer token that is signed under the configured
    key, not expired, and whose subject id is no ObjectId string.  The token
    decodes; the chain of the specification resolves no identity and answers
    401; [get_current_user] calls [ObjectId] on the subject id outside any
    [try], the [InvalidId] leaves the handler and every protected route is
    answered 500. *)
Lemma C8_stray_subject_id_raises :
  decode_token default_settings 2100 stray_subject_token
  = Return {| td_email := Some "c@x.com"; td_role := Some STUDENT;
              td_id := Some "not-an-object-id" |} ∧
  guard_chain any_active_verified
    (resolve_identity default_settings 2100 stray_subject_token test_db)
  = inl Unauthorized ∧
  rejection_status Unauthorized = 401 ∧
  get_current_user default_settings 2100 stray_subject_token test_db
  = Raise (InvalidId "not-an-object-id") ∧
  (∀ v, protected_route default_settings v 2100 stray_subject_token test_db
        = Raise (InvalidId "not-an-object-id")) ∧
  (∀ v, response_status HTTP_200_OK
          (protected_route default_settings v 2100 stray_subject_token
             test_db) = 500).
Proof.
  split_and!; try (vm_compute; reflexivity);
    intros []; vm_compute; reflexivity.
Qed.

Example guard_chain_inactive_teacher_on_admin_route :
  guard_chain admin_only
    (resolve_identity default_settings 2000 teacher_token test_db)
  = inl BadRequest_inactive ∧
  response_status HTTP_200_OK
    (protected_route default_settings admin_only 2000 teacher_token test_db)
  = 400.
Proof. vm_compute. done. Qed.

(** ** Login *)

Section Login.
Variable settings : Settings.
Variable bcrypt : bcrypt_handler.

(** An account that is not verified is refused at login once its password
    has been checked, whatever its role. *)
Lemma login_unverified_forbidden user_login now db user_doc :
  find_one [Eq_email (ul_email user_login)] db = Some user_doc →
  verify_password bcrypt (ul_password user_login) (hashed_password user_doc)
  = Return true →
  is_verified user_doc = false →
  login_for_access_token settings bcrypt user_login now db
  = Raise (HTTPError {|
      status_code := HTTP_403_FORBIDDEN;
      detail := "Account not verified. Please verify your email.";
      headers := [("WWW-Authenticate", "Bearer")] |}).
Proof.
  intros Hfind Hpw Hver. unfold login_for_access_token.
  rewrite Hfind. simpl. rewrite Hpw. simpl. by rewrite Hver.
Qed.

(** The token of a successful login carries the id, email and role of the
    account found under the address. *)
Lemma login_token_claims user_login now db tok :
  login_for_access_token settings bcrypt user_login now db = Return tok →
  ∃ d, find_one [Eq_email (ul_email user_login)] db = Some d ∧
       access_token tok
       = jwt_encode
           (<["exp" :=
               JNum (now + minutes (ACCESS_TOKEN_EXPIRE_MINUTES settings))]>
              (claims (ObjectId_str (_id d)) (email d) (role d)))
           (JWT_SECRET_KEY settings) (JWT_ALGORITHM settings).
Proof.
  unfold login_for_access_token.
  destruct (find_one _ db) as [d|]; [|done].
  simpl. destruct (verify_password _ _) as [[|]|]; simpl; [|done..].
  destruct (is_verified d); simpl; [|done].
  destruct (bool_decide (status d = ACTIVE)); simpl; [|done].
  intros [= <-]. by exists d.
Qed.

(** Hence it meets the precondition of the guard chain, when the stored
    [_id]s are in the form that [str] prints. *)
Lemma login_token_subject_id user_login now db tok t token_data subject_id :
  (∀ d, d ∈ db → ObjectId_call (ObjectId_str (_id d)) = Return (_id d)) →
  login_for_access_token settings bcrypt user_login now db = Return tok →
  decode_token settings t (access_token tok) = Return token_data →
  td_id token_data = Some subject_id →
  ∃ d, d ∈ db ∧ email d = ul_email user_login ∧
       ObjectId_call subject_id = Return (_id d).
Proof.
  intros Hcanon (d & Hfind & ->)%login_token_claims.
  rewrite decode_token_signed_claims.
  destruct (_ <=? t); [done|]. intros [= <-] [= <-].
  apply find_one_Some in Hfind as [i (Hi & Hm & _)%list_find_Some].
  simpl in Hm. rewrite andb_true_r in Hm.
  apply bool_decide_eq_true in Hm.
  apply list_elem_of_lookup_2 in Hi. eauto.
Qed.

(** The digest that the reset path stores is no bcrypt digest. *)
Lemma verify_password_placeholder plain_password new_password :
  verify_password bcrypt plain_password
    (hash_password_placeholder new_password)
  = Raise UnknownHashError.
Proof. reflexivity. Qed.

(** [store_reset_password_token] never writes: the name [ObjectId] is not
    bound in [reset_password.py], the [NameError] is swallowed by the
    [except] clause. *)
Lemma store_reset_password_token_fails user_id token now now' db :
  store_reset_password_token settings user_id token now now' db
  = (false, db).
Proof. reflexivity. Qed.

(** Were the name bound, the filter would still carry [str(user_id)], a
    string, and match no document, whose [_id] is an [ObjectId]. *)
Lemma update_one_string_id key update db :
  update_one [Eq__id (BString key)] update db = (mkUpdateResult 0 0, db).
Proof.
  unfold update_one.
  destruct (list_find _ db) as [[i d]|] eqn:E; [|done].
  by apply list_find_Some in E as (_ & ? & _).
Qed.

Lemma request_password_reset_registered request reset_token now now' db
    user_doc :
  find_one [Eq_email (prr_email request)] db = Some user_doc →
  request_password_reset settings request reset_token now now' db
  = (Raise (HTTPError {|
       status_code := HTTP_500_INTERNAL_SERVER_ERROR;
       detail := "Failed to generate password reset token.";
       headers := [] |}), db, []).
Proof.
  intros Hfind. unfold request_password_reset. by rewrite Hfind.
Qed.
End Login.

(** C1: the code at an active, unverified admin account and its correct
    password.  The password verifies and login answers 403 "Account not
    verified", where the specification has 200 and an access token; the
    sibling check of [get_current_user] lets the same account through. *)
Lemma C1_unverified_admin_login_rejected :
  role admin_doc = ADMIN ∧
  is_verified admin_doc = false ∧
  status admin_doc = ACTIVE ∧
  verify_password test_bcrypt "password123" (hashed_password admin_doc)
  = Return true ∧
  login_for_access_token default_settings test_bcrypt
    (mkUserLogin "root@x.com" "password123") 2000 test_db
  = Raise (HTTPError {|
      status_code := HTTP_403_FORBIDDEN;
      detail := "Account not verified. Please verify your email.";
      headers := [("WWW-Authenticate", "Bearer")] |}) ∧
  get_current_user default_settings 2000 admin_token test_db
  = Return (UserModel_call admin_doc).
Proof. vm_compute. done. Qed.

(** C2: the code at a pending reset token.  The stored credential is the
    placeholder string, which the password-hashing component does not
    recognise as a digest: verification of the new password against it
    raises, and so does the login that follows. *)
Lemma C2_reset_stores_placeholder :
  let '(u, db1) :=
    reset_user_password "rtok3" "newpassword1" 2000 2001 test_db in
  UserModel.hashed_password <$> u = Some "hashed_newpassword1" ∧
  hashed_password <$> find_one [Eq_email "b@x.com"] db1
  = Some "hashed_newpassword1" ∧
  verify_password test_bcrypt "newpassword1" "hashed_newpassword1"
  = Raise UnknownHashError ∧
  login_for_access_token default_settings test_bcrypt
    (mkUserLogin "b@x.com" "newpassword1") 2002 db1
  = Raise UnknownHashError.
Proof. vm_compute. done. Qed.

(** C3: the code at a registered and at an unregistered address.  The
    unregistered one gets 200 and the generic message, the registered one
    gets 500 "Failed to generate password reset token." *)
Lemma C3_registered_email_distinguished :
  let registered :=
    request_password_reset default_settings
      (mkPasswordResetRequest "a@x.com") "fresh" 2000 2001 test_db in
  let unregistered :=
    request_password_reset default_settings
      (mkPasswordResetRequest "nobody@x.com") "fresh" 2000 2001 test_db in
  unregistered.1.1 = Return reset_request_message ∧
  response_status HTTP_200_OK unregistered.1.1 = 200 ∧
  registered.1.1
  = Raise (HTTPError {|
      status_code := HTTP_500_INTERNAL_SERVER_ERROR;
      detail := "Failed to generate password reset token.";
      headers := [] |}) ∧
  response_status HTTP_200_OK registered.1.1 = 500 ∧
  registered.1.2 = test_db ∧
  registered.2 = [].
Proof. vm_compute. done. Qed.

(** The closing scenario of the specification, from the login on: a
    verified, active student logs in, reaches the student route with the
    token and is refused on the admin route. *)
Example login_then_protected_routes :
  ∃ tok,
    login_for_access_token default_settings test_bcrypt
      (mkUserLogin "c@x.com" "password789") 2000 test_db = Return tok ∧
    protected_student_route default_settings 2100 (access_token tok) test_db
    = Return (UserModel_call active_student_doc) ∧
    response_status HTTP_200_OK
      (protected_admin_route default_settings 2100 (access_token tok) test_db)
    = 403.
Proof.
  eexists. split; [vm_compute; reflexivity|]. vm_compute. done.
Qed.

(** * Further properties *)

(** ** Tokens *)

Section TokenFacts.
Variable settings : Settings.

Lemma decode_token_expired_payload data exp now :
  exp ≤ now →
  decode_token settings now
    (jwt_encode (<["exp" := JNum exp]> data)
       (JWT_SECRET_KEY settings) (JWT_ALGORITHM settings))
  = Raise (HTTPError expired_exception).
Proof.
  intros Hle. unfold decode_token, decode_token_try.
  rewrite jwt_decode_own_token, lookup_insert_eq.
  by rewrite (proj2 (Z.leb_le _ _)) by lia.
Qed.

Lemma UserRole_call_Return v role :
  UserRole_call v = Return role → v = JStr (UserRole_value role).
Proof.
  destruct v as [| |n|s]; simpl; try done.
  repeat case_decide; intros [= <-]; by subst.
Qed.

Lemma dict_get_Some payload k v :
  dict_get payload k = Some v ↔ payload !! k = Some v ∧ v ≠ JNull.
Proof.
  unfold dict_get.
  destruct (payload !! k) as [w|]; [|split; [done|by intros [? ?]]].
  destruct w; split;
    first [ done
          | by intros [? _]
          | intros [[= <-] Hn]; by destruct Hn
          | intros [= <-]; by split ].
Qed.

(** What the body of [decode_token] makes of a verified payload. *)
Lemma payload_token_data payload token_data :
  match dict_get payload "email", dict_get payload "role",
        dict_get payload "id" with
  | Some email, Some role, Some user_id =>
      r ← UserRole_call role; TokenData_call email r user_id
  | _, _, _ => Raise (HTTPError credentials_exception)
  end = Return token_data →
  ∃ email role id,
    payload !! "email" = Some (JStr email) ∧
    payload !! "role" = Some (JStr (UserRole_value role)) ∧
    payload !! "id" = Some id ∧ id ≠ JNull ∧
    token_data = {| td_email := Some email; td_role := Some role;
                    td_id := Some (py_str id) |}.
Proof.
  destruct (dict_get payload "email") as [ev|] eqn:He; [|done].
  destruct (dict_get payload "role") as [rv|] eqn:Hr; [|done].
  destruct (dict_get payload "id") as [idv|] eqn:Hi; [|done].
  apply dict_get_Some in He as [He _], Hr as [Hr _], Hi as [Hi Hnull].
  destruct (UserRole_call rv) as [role|] eqn:Hrole; [|done].
  apply UserRole_call_Return in Hrole as ->. simpl.
  destruct ev as [| | |email]; try done. intros [= <-].
  by exists email, role, idv.
Qed.
End TokenFacts.

(** X1. A refresh token is an access token with another default
    lifetime, and nothing in it tells the two kinds apart: issued with the
    same non-zero [expires_delta] from the same data at the same instant the
    two are the same token; issued with the default lifetime, when
    [REFRESH_TOKEN_EXPIRE_MINUTES] is not zero, the refresh token is the
    access token issued with that lifetime; and [decode_token] takes it like
    an access token: issued for a claims set with the default lifetime it
    decodes to the claims until [REFRESH_TOKEN_EXPIRE_MINUTES] have passed
    and to 401 "Token has expired" from then on. *)
Theorem refresh_token_decodes
    (settings : Settings) (id email : string) (role : UserRole) (t0 t : Z) :
  (∀ (data : gmap string json) (delta : Z),
     delta ≠ 0 →
     create_refresh_token settings data (Some delta) t0
     = create_access_token settings data (Some delta) t0) ∧
  (∀ data : gmap string json,
     minutes (REFRESH_TOKEN_EXPIRE_MINUTES settings) ≠ 0 →
     create_refresh_token settings data None t0
     = create_access_token settings data
         (Some (minutes (REFRESH_TOKEN_EXPIRE_MINUTES settings))) t0) ∧
  decode_token settings t
    (create_refresh_token settings (claims id email role) None t0)
  = if t0 + minutes (REFRESH_TOKEN_EXPIRE_MINUTES settings) <=? t
    then Raise (HTTPError expired_exception)
    else Return {| td_email := Some email; td_role := Some role;
                   td_id := Some id |}.
Proof.
  split_and!.
  - intros data delta Hne.
    unfold create_refresh_token, create_access_token.
    by rewrite !decide_False by done.
  - intros data Hne.
    unfold create_refresh_token, create_access_token.
    by rewrite decide_False by done.
  - unfold create_refresh_token. apply decode_token_signed_claims.
Qed.

(** X1, under the settings of the repository, for a student's claims: the
    refresh token issued for a week is the access token issued for a week,
    the refresh token of default lifetime is the access token issued for
    [REFRESH_TOKEN_EXPIRE_MINUTES], and the protected route of the students
    takes it as a bearer token. *)
Lemma refresh_token_decodes_witness :
  let data := claims "65a000000000000000000004" "c@x.com" STUDENT in
  create_refresh_token default_settings data (Some 604800) 2000
  = create_access_token default_settings data (Some 604800) 2000 ∧
  create_refresh_token default_settings data None 2000
  = create_access_token default_settings data
      (Some (minutes (REFRESH_TOKEN_EXPIRE_MINUTES default_settings))) 2000 ∧
  decode_token default_settings 2100
    (create_refresh_token default_settings data None 2000)
  = Return {| td_email := Some "c@x.com"; td_role := Some STUDENT;
              td_id := Some "65a000000000000000000004" |}.
Proof.
  pose proof (refresh_token_decodes default_settings
                "65a000000000000000000004" "c@x.com" STUDENT 2000 2100)
    as (Hsame & Hdefault & Hdecode).
  split_and!.
  - apply Hsame. lia.
  - apply Hdefault. vm_compute. discriminate.
  - exact Hdecode.
Defined.

(** X2. A zero [timedelta] is not a lifetime of zero: with
    [expires_delta] zero, as with [None], the access token lives for
    [ACCESS_TOKEN_EXPIRE_MINUTES]. *)
Theorem access_token_zero_delta_is_default
    (settings : Settings) (id email : string) (role : UserRole) (t0 t : Z) :
  create_access_token settings (claims id email role) (Some 0) t0
  = create_access_token settings (claims id email role) None t0 ∧
  decode_token settings t
    (create_access_token settings (claims id email role) (Some 0) t0)
  = if t0 + minutes (ACCESS_TOKEN_EXPIRE_MINUTES settings) <=? t
    then Raise (HTTPError expired_exception)
    else Return {| td_email := Some email; td_role := Some role;
                   td_id := Some id |}.
Proof.
  split; [done|]. unfold create_access_token. simpl.
  apply decode_token_signed_claims.
Qed.

(** X3. Instants and lifetimes in microseconds.  For data to encode that
    carry none of the registered claims [iss], [sub], [aud], [nbf], [iat] and
    [jti], whatever else they hold, an [exp] entry of their own included, a
    token issued with a non-zero [expires_delta] is expired at every instant
    from [t0 + expires_delta] on; with a negative one it is expired when it
    is issued. *)
Theorem access_token_expiry_enforced
    (settings : Settings) (data : gmap string json) (delta t0 t : Z) :
  no_registered_claims data →
  delta ≠ 0 →
  t0 + delta ≤ t →
  decode_token settings (timegm t)
    (create_access_token_us settings data (Some delta) t0)
  = Raise (HTTPError expired_exception).
Proof.
  intros _ Hne Hle%timegm_mono. unfold create_access_token_us.
  rewrite decide_False by done. by apply decode_token_expired_payload.
Qed.

(** X3, for a lifetime of minus half a second and data that bring an [exp]
    of their own, at the instant of issue. *)
Lemma access_token_expiry_enforced_witness :
  decode_token default_settings (timegm 1000200000)
    (create_access_token_us default_settings
       (<["exp" := JNum 999999]>
          (claims "65a000000000000000000002" "a@x.com" STUDENT))
       (Some (-500000)) 1000200000)
  = Raise (HTTPError expired_exception).
Proof.
  apply access_token_expiry_enforced; [compute_done|done|lia].
Defined.

(** X4. [decode_token] yields token data only for a token signed under
    the configured key with the configured algorithm, not yet expired, whose
    payload holds the email as a string, the value of a role and an id that
    is not null; the data are that email, that role and the string form of
    that id, none of them missing. *)
Theorem decode_token_sound
    (settings : Settings) (now : Z) (token : bearer) (token_data : TokenData) :
  decode_token settings now token = Return token_data →
  ∃ payload email role id,
    token = Signed (JWT_SECRET_KEY settings) (JWT_ALGORITHM settings) payload ∧
    (∀ exp, payload !! "exp" = Some (JNum exp) → now < exp) ∧
    payload !! "email" = Some (JStr email) ∧
    payload !! "role" = Some (JStr (UserRole_value role)) ∧
    payload !! "id" = Some id ∧ id ≠ JNull ∧
    token_data = {| td_email := Some email; td_role := Some role;
                    td_id := Some (py_str id) |}.
Proof.
  unfold decode_token.
  destruct (decode_token_try settings now token) as [td|e] eqn:Htry;
    [|by destruct e]. intros [= ->].
  unfold decode_token_try, jwt_decode in Htry.
  destruct token as [raw|key alg payload]; [done|].
  destruct (bool_decide (alg ∈ [JWT_ALGORITHM settings])) eqn:Halg;
    simpl in Htry; [|done].
  apply bool_decide_eq_true, list_elem_of_singleton in Halg as ->.
  destruct (bool_decide (key = JWT_SECRET_KEY settings)) eqn:Hkey;
    simpl in Htry; [|done].
  apply bool_decide_eq_true in Hkey as ->.
  destruct (payload !! "exp") as [[| |exp|]|] eqn:E; simpl in Htry; try done.
  - destruct (exp <=? now) eqn:Hle; simpl in Htry; [done|].
    destruct (payload_token_data _ _ Htry)
      as (email & role & id & ? & ? & ? & ? & ?).
    exists payload, email, role, id. split_and!; try done.
    intros exp' Hexp. rewrite E in Hexp. injection Hexp as <-.
    by apply Z.leb_gt.
  - destruct (payload_token_data _ _ Htry)
      as (email & role & id & ? & ? & ? & ? & ?).
    exists payload, email, role, id. split_and!; try done.
    intros exp' Hexp. by rewrite E in Hexp.
Qed.

(** X4, at the token of the teacher of the sample collection. *)
Lemma decode_token_sound_witness :
  ∃ payload email role id,
    teacher_token
    = Signed (JWT_SECRET_KEY default_settings)
        (JWT_ALGORITHM default_settings) payload ∧
    (∀ exp, payload !! "exp" = Some (JNum exp) → 2000 < exp) ∧
    payload !! "email" = Some (JStr email) ∧
    payload !! "role" = Some (JStr (UserRole_value role)) ∧
    payload !! "id" = Some id ∧ id ≠ JNull ∧
    {| td_email := Some "b@x.com"; td_role := Some TEACHER;
       td_id := Some "65a000000000000000000003" |}
    = {| td_email := Some email; td_role := Some role;
         td_id := Some (py_str id) |}.
Proof.
  apply (decode_token_sound default_settings 2000 teacher_token).
  vm_compute. reflexivity.
Defined.

(** ** The guards *)

Section GuardFacts.
Variable settings : Settings.

(** Every protected route is the any-active route followed by the role
    dependency of its variant. *)
Lemma protected_route_factor v now token db :
  protected_route settings v now token db
  = protected_any_active_route settings now token db ≫= role_dependency v.
Proof.
  destruct v; simpl;
    unfold protected_student_route, protected_teacher_route,
      protected_admin_route, protected_any_active_route;
    (destruct (get_current_user settings now token db) as [user|];
       simpl; [|done]);
    by destruct (get_current_active_user user).
Qed.

Lemma role_dependency_Return v user u :
  role_dependency v user = Return u →
  u = user ∧ role_gate v (UserModel.role user) = true.
Proof.
  destruct v; simpl;
    unfold get_current_student_user, get_current_teacher_or_admin_user,
      get_current_admin_user;
    destruct (UserModel.role user); simpl; intros [= <-]; done.
Qed.

Lemma role_dependency_gate v user :
  role_gate v (UserModel.role user) = true →
  role_dependency v user = Return user.
Proof.
  destruct v; simpl;
    unfold get_current_student_user, get_current_teacher_or_admin_user,
      get_current_admin_user;
    by destruct (UserModel.role user).
Qed.

Lemma role_dependency_refuses v user :
  role_gate v (UserModel.role user) = false →
  ∃ e, role_dependency v user = Raise (HTTPError e) ∧
       status_code e = HTTP_403_FORBIDDEN.
Proof.
  destruct v; simpl;
    unfold get_current_student_user, get_current_teacher_or_admin_user,
      get_current_admin_user;
    destruct (UserModel.role user); simpl; intros ?; try done; eauto.
Qed.

Lemma get_current_active_user_Return user u :
  get_current_active_user user = Return u →
  u = user ∧ UserModel.status user = ACTIVE.
Proof.
  unfold get_current_active_user. case_bool_decide; simpl; [|done].
  by intros [= <-].
Qed.

Lemma get_current_user_Return now token db u :
  get_current_user settings now token db = Return u →
  ∃ token_data subject_id d,
    decode_token settings now token = Return token_data ∧
    td_id token_data = Some subject_id ∧
    ObjectId_call subject_id = Return (_id d) ∧
    d ∈ db ∧ u = UserModel_call d ∧
    (is_verified d = true ∨ role d = ADMIN).
Proof.
  unfold get_current_user.
  destruct (decode_token settings now token) as [token_data|]; [|done].
  simpl. destruct (td_id token_data) as [subject_id|] eqn:Hsub; [|done].
  destruct (ObjectId_call subject_id) as [oid|] eqn:Hoid; [|done]. simpl.
  destruct (find_one _ db) as [d|] eqn:Hfind; [|done].
  apply find_one_Some in Hfind as [i (Hi & Hm & _)%list_find_Some].
  simpl in Hm. rewrite andb_true_r in Hm.
  apply bool_decide_eq_true in Hm as <-.
  apply list_elem_of_lookup_2 in Hi.
  cbn [UserModel_call UserModel.is_verified UserModel.role].
  destruct (is_verified d) eqn:Hver; simpl.
  - intros [= <-]. exists token_data, subject_id, d. split_and!; auto.
  - case_bool_decide as Hrole; simpl; [|done].
    intros [= <-]. exists token_data, subject_id, d. split_and!; auto.
Qed.

Lemma decode_token_foreign now key alg payload :
  key ≠ JWT_SECRET_KEY settings ∨ alg ≠ JWT_ALGORITHM settings →
  decode_token settings now (Signed key alg payload)
  = Raise (HTTPError credentials_exception).
Proof.
  intros [Hkey|Halg]; [by apply decode_token_other_key|].
  unfold decode_token, decode_token_try, jwt_decode.
  rewrite bool_decide_eq_false_2; [done|].
  by intros ->%list_elem_of_singleton.
Qed.
End GuardFacts.

(** X5. What a protected route yields is an account of the collection:
    the one whose [_id] the subject id of the decoded token spells, which is
    active, which is verified or an admin, and whose stored role passes the
    role gate of the route. *)
Theorem protected_route_sound
    (settings : Settings) (v : role_variant) (now : Z) (token : bearer)
    (db : collection) (u : UserModel.t) :
  protected_route settings v now token db = Return u →
  ∃ token_data subject_id d,
    decode_token settings now token = Return token_data ∧
    td_id token_data = Some subject_id ∧
    ObjectId_call subject_id = Return (_id d) ∧
    d ∈ db ∧ u = UserModel_call d ∧
    status d = ACTIVE ∧
    (is_verified d = true ∨ role d = ADMIN) ∧
    role_gate v (role d) = true.
Proof.
  rewrite protected_route_factor. unfold protected_any_active_route.
  destruct (get_current_user settings now token db) as [user|] eqn:Huser;
    [|done]. simpl.
  destruct (get_current_active_user user) as [user'|] eqn:Hactive; [|done].
  simpl. intros [-> Hgate]%role_dependency_Return.
  apply get_current_active_user_Return in Hactive as [-> Hstatus].
  apply get_current_user_Return in Huser
    as (token_data & subject_id & d & ? & ? & ? & ? & -> & ?).
  exists token_data, subject_id, d. split_and!; done.
Qed.

(** X5, at the login token of the verified student on the student route. *)
Lemma protected_route_sound_witness :
  ∃ token_data subject_id d,
    decode_token default_settings 2100 student_token = Return token_data ∧
    td_id token_data = Some subject_id ∧
    ObjectId_call subject_id = Return (_id d) ∧
    d ∈ test_db ∧ UserModel_call active_student_doc = UserModel_call d ∧
    status d = ACTIVE ∧
    (is_verified d = true ∨ role d = ADMIN) ∧
    role_gate student_only (role d) = true.
Proof.
  apply (protected_route_sound default_settings student_only 2100
           student_token test_db).
  vm_compute. reflexivity.
Defined.

(** X6. Once a route has let a token through, any other route answers
    that token by its role gate alone: it yields the same account when the
    stored role passes its gate, and 403 otherwise.  So what the admin route
    admits the teacher-or-admin and the any-active routes admit, and the
    student route refuses. *)
Theorem protected_route_other_variant
    (settings : Settings) (v v' : role_variant) (now : Z) (token : bearer)
    (db : collection) (u : UserModel.t) :
  protected_route settings v now token db = Return u →
  if role_gate v' (UserModel.role u)
  then protected_route settings v' now token db = Return u
  else ∃ e, protected_route settings v' now token db = Raise (HTTPError e) ∧
            status_code e = HTTP_403_FORBIDDEN.
Proof.
  rewrite !protected_route_factor.
  destruct (protected_any_active_route settings now token db) as [user|];
    [|done]. simpl.
  intros [-> _]%role_dependency_Return.
  destruct (role_gate v' (UserModel.role user)) eqn:Hgate.
  - by apply role_dependency_gate.
  - by apply role_dependency_refuses.
Qed.

(** X6, from the student route to the admin route. *)
Lemma protected_route_other_variant_witness :
  ∃ e, protected_route default_settings admin_only 2100 student_token test_db
       = Raise (HTTPError e) ∧
       status_code e = HTTP_403_FORBIDDEN.
Proof.
  apply (protected_route_other_variant default_settings student_only
           admin_only 2100 student_token test_db
           (UserModel_call active_student_doc)).
  vm_compute. reflexivity.
Defined.

(** X7. Of a token that decodes the guards use the subject id only: the
    email and the role that the token asserts play no part, the account and
    its role are read from the collection.  Two tokens that decode to the
    same subject id get the same answer on every route. *)
Theorem guard_reads_subject_id_only
    (settings : Settings) (v : role_variant) (now : Z) (token token' : bearer)
    (token_data token_data' : TokenData) (db : collection) :
  decode_token settings now token = Return token_data →
  decode_token settings now token' = Return token_data' →
  td_id token_data = td_id token_data' →
  protected_route settings v now token db
  = protected_route settings v now token' db.
Proof.
  intros Hdec Hdec' Hid. rewrite !protected_route_factor.
  unfold protected_any_active_route, get_current_user.
  rewrite Hdec, Hdec'. simpl. by rewrite Hid.
Qed.

(** X7, at the login token of the student and a token for the same
    subject that asserts the admin role: both are refused on the admin
    route. *)
Lemma guard_reads_subject_id_only_witness :
  protected_route default_settings admin_only 2100 student_token test_db
  = protected_route default_settings admin_only 2100
      (create_access_token default_settings
         (claims "65a000000000000000000004" "root@x.com" ADMIN) None 2000)
      test_db.
Proof.
  eapply (guard_reads_subject_id_only default_settings admin_only 2100).
  - vm_compute. reflexivity.
  - vm_compute. reflexivity.
  - reflexivity.
Defined.

(** X8. A token signed under another key, or with another algorithm than
    the configured one, is answered 401 "Could not validate credentials" on
    every protected route, whatever its payload asserts and whatever the
    collection holds. *)
Theorem foreign_token_rejected
    (settings : Settings) (v : role_variant) (now : Z) (key alg : string)
    (payload : gmap string json) (db : collection) :
  key ≠ JWT_SECRET_KEY settings ∨ alg ≠ JWT_ALGORITHM settings →
  protected_route settings v now (Signed key alg payload) db
  = Raise (HTTPError credentials_exception).
Proof.
  intros Hforeign. rewrite protected_route_factor.
  unfold protected_any_active_route, get_current_user.
  by rewrite decode_token_foreign.
Qed.

(** X8, at an unsigned token ([alg] "none") that asserts the admin. *)
Lemma foreign_token_rejected_witness :
  protected_route default_settings admin_only 2000
    (Signed (JWT_SECRET_KEY default_settings) "none"
       (claims "65a000000000000000000001" "root@x.com" ADMIN))
    test_db
  = Raise (HTTPError credentials_exception).
Proof.
  apply foreign_token_rejected. right. vm_compute. discriminate.
Defined.

(** ** Login and what follows it *)

Section LoginFacts.
Variable settings : Settings.
Variable bcrypt : bcrypt_handler.

Lemma login_success user_login now db tok :
  login_for_access_token settings bcrypt user_login now db = Return tok →
  ∃ d, find_one [Eq_email (ul_email user_login)] db = Some d ∧
       verify_password bcrypt (ul_password user_login) (hashed_password d)
       = Return true ∧
       is_verified d = true ∧
       status d = ACTIVE ∧
       tok = {| access_token :=
                  create_access_token settings
                    (claims (ObjectId_str (_id d)) (email d) (role d))
                    None now;
                token_type := "bearer" |}.
Proof.
  unfold login_for_access_token.
  destruct (find_one _ db) as [d|]; [|done].
  simpl. destruct (verify_password _ _) as [[|]|] eqn:Hpw; simpl; [|done..].
  destruct (is_verified d) eqn:Hver; simpl; [|done].
  case_bool_decide as Hstatus; simpl; [|done].
  intros [= <-]. by exists d.
Qed.

Lemma login_accepts user_login now db d :
  find_one [Eq_email (ul_email user_login)] db = Some d →
  verify_password bcrypt (ul_password user_login) (hashed_password d)
  = Return true →
  is_verified d = true →
  status d = ACTIVE →
  login_for_access_token settings bcrypt user_login now db
  = Return {| access_token :=
                create_access_token settings
                  (claims (ObjectId_str (_id d)) (email d) (role d))
                  None now;
              token_type := "bearer" |}.
Proof.
  intros Hfind Hpw Hver Hstatus. unfold login_for_access_token.
  rewrite Hfind. simpl. rewrite Hpw. simpl. rewrite Hver, Hstatus. done.
Qed.

(** The index of a document found by a filter. *)
Lemma find_one_lookup q db d :
  find_one q db = Some d →
  ∃ i : nat, db !! i = Some d ∧
             list_find (λ d, matches q d = true) db = Some (i, d).
Proof.
  intros [i Hfind]%find_one_Some. exists i. split; [|done].
  by apply list_find_Some in Hfind as (? & _ & _).
Qed.

(** Rewriting the document that a filter finds by one that the filter
    matches as well leaves it the one found. *)
Lemma list_find_insert_found q (db : collection) (i : nat) d d' :
  list_find (λ d, matches q d = true) db = Some (i, d) →
  matches q d' = true →
  list_find (λ d, matches q d = true) (<[i := d']> db) = Some (i, d').
Proof.
  intros (Hi & Hm & Hleast)%list_find_Some Hm'.
  apply list_find_Some. split_and!; [|done|].
  - apply list_lookup_insert_eq. by eapply lookup_lt_Some.
  - intros j y Hj Hlt. rewrite list_lookup_insert_ne in Hj by lia. eauto.
Qed.

Lemma list_find_verification_query (db : collection) t now (i : nat) d e :
  outstanding_once verification_token t db →
  db !! i = Some d →
  verification_token d = Some t →
  verification_token_expires_at d = Some e →
  now < e →
  list_find (λ d, matches [Eq_verification_token t;
                           Gt_verification_token_expires_at now] d = true) db
  = Some (i, d).
Proof.
  intros Honce Hi Htok Hexp Hlt. apply list_find_Some. split_and!; [done| |].
  - apply matches_verification_query. eauto.
  - intros j y Hj Hji [Hy _]%matches_verification_query.
    assert (j = i) by eauto using outstanding_once_lookup. lia.
Qed.

Lemma list_find_reset_query (db : collection) t now (i : nat) d e :
  outstanding_once reset_password_token t db →
  db !! i = Some d →
  reset_password_token d = Some t →
  reset_password_token_expires_at d = Some e →
  now < e →
  list_find (λ d, matches [Eq_reset_password_token t;
                           Gt_reset_password_token_expires_at now] d = true) db
  = Some (i, d).
Proof.
  intros Honce Hi Htok Hexp Hlt. apply list_find_Some. split_and!; [done| |].
  - apply matches_reset_query. eauto.
  - intros j y Hj Hji [Hy _]%matches_reset_query.
    assert (j = i) by eauto using outstanding_once_lookup. lia.
Qed.
End LoginFacts.

(** X9. An unknown address and a wrong password get one and the same
    answer, 401 "Incorrect email or password"; the wrong password gets it
    whatever the state of the account, so that neither the existence of an
    account nor its verification state or status shows without the
    password. *)
Theorem login_invalid_credentials
    (settings : Settings) (bcrypt : bcrypt_handler) (user_login : UserLogin)
    (now : Z) (db : collection) :
  find_one [Eq_email (ul_email user_login)] db = None ∨
  (∃ d, find_one [Eq_email (ul_email user_login)] db = Some d ∧
        verify_password bcrypt (ul_password user_login) (hashed_password d)
        = Return false) →
  login_for_access_token settings bcrypt user_login now db
  = Raise (HTTPError incorrect_email_or_password).
Proof.
  unfold login_for_access_token. intros [->|(d & -> & Hpw)]; [done|].
  simpl. by rewrite Hpw.
Qed.

(** X9, at an unknown address and at a wrong password for the unverified
    student. *)
Lemma login_invalid_credentials_witness :
  login_for_access_token default_settings test_bcrypt
    (mkUserLogin "nobody@x.com" "password123") 2000 test_db
  = Raise (HTTPError incorrect_email_or_password) ∧
  login_for_access_token default_settings test_bcrypt
    (mkUserLogin "a@x.com" "wrong-password") 2000 test_db
  = Raise (HTTPError incorrect_email_or_password).
Proof.
  split; apply login_invalid_credentials.
  - left. vm_compute. reflexivity.
  - right. exists student_doc. split; vm_compute; reflexivity.
Defined.

(** X10. The token of a successful login is a bearer token that the
    guards take until [ACCESS_TOKEN_EXPIRE_MINUTES] have passed, and they
    resolve it to the very account that logged in; from then on it is
    answered 401 "Token has expired".  The collection is keyed by [_id] and
    its [_id]s are in the form that [str] prints. *)
Theorem login_token_accepted
    (settings : Settings) (bcrypt : bcrypt_handler) (user_login : UserLogin)
    (now t : Z) (db : collection) (tok : Token) :
  primary_key db →
  canonical_ids db →
  login_for_access_token settings bcrypt user_login now db = Return tok →
  ∃ d, find_one [Eq_email (ul_email user_login)] db = Some d ∧
       token_type tok = "bearer" ∧
       protected_any_active_route settings t (access_token tok) db
       = if now + minutes (ACCESS_TOKEN_EXPIRE_MINUTES settings) <=? t
         then Raise (HTTPError expired_exception)
         else Return (UserModel_call d).
Proof.
  intros Hkey Hcanon (d & Hfind & _ & Hver & Hstatus & ->)%login_success.
  exists d. split_and!; [done..|]. simpl.
  unfold protected_any_active_route, get_current_user, create_access_token.
  rewrite decode_token_signed_claims.
  destruct (_ <=? t); [done|]. simpl.
  destruct (find_one_lookup _ _ _ Hfind) as (i & Hi & _).
  assert (ObjectId_call (ObjectId_str (_id d)) = Return (_id d)) as ->.
  { eapply (Forall_lookup_1 _ _ _ _ Hcanon Hi). }
  simpl. rewrite (find_one_by_id db i d Hkey Hi).
  cbn [UserModel_call UserModel.is_verified UserModel.role].
  rewrite Hver. simpl. unfold get_current_active_user.
  cbn [UserModel_call UserModel.status]. by rewrite Hstatus.
Qed.

(** X10, for the verified student, ten minutes after the login. *)
Lemma login_token_accepted_witness :
  ∃ d, find_one [Eq_email "c@x.com"] test_db = Some d ∧
       token_type {| access_token := student_token; token_type := "bearer" |}
       = "bearer" ∧
       protected_any_active_route default_settings 2600 student_token test_db
       = if 2000 + minutes (ACCESS_TOKEN_EXPIRE_MINUTES default_settings)
            <=? 2600
         then Raise (HTTPError expired_exception)
         else Return (UserModel_call d).
Proof.
  apply (login_token_accepted default_settings test_bcrypt
           (mkUserLogin "c@x.com" "password789") 2000 2600 test_db
           {| access_token := student_token; token_type := "bearer" |}).
  - compute_done.
  - compute_done.
  - vm_compute. reflexivity.
Defined.

(** X11. Consuming its verification token opens the login to an account.
    In a collection keyed by [_id] in which the token is outstanding on at
    most one account: whatever its status before, the account of the
    address, holding the token unexpired, logs in with its password in the
    state that the consume leaves, and the token it gets carries its id,
    email and role. *)
Theorem verify_then_login
    (settings : Settings) (bcrypt : bcrypt_handler) (db : collection)
    (t : string) (now now' e t1 : Z) (d : document) (user_login : UserLogin) :
  primary_key db →
  outstanding_once verification_token t db →
  find_one [Eq_email (ul_email user_login)] db = Some d →
  verification_token d = Some t →
  verification_token_expires_at d = Some e →
  now < e →
  verify_password bcrypt (ul_password user_login) (hashed_password d)
  = Return true →
  login_for_access_token settings bcrypt user_login t1
    (verify_user_email t now now' db).2
  = Return {| access_token :=
                create_access_token settings
                  (claims (ObjectId_str (_id d)) (email d) (role d))
                  None t1;
              token_type := "bearer" |}.
Proof.
  intros Hkey Honce Hfind Htok Hexp Hlt Hpw.
  destruct (find_one_lookup _ _ _ Hfind) as (i & Hi & Hemail).
  pose proof (list_find_verification_query db t now i d e
                Honce Hi Htok Hexp Hlt) as Hquery.
  rewrite (verify_user_email_found _ _ _ now' _ _ Hkey Hquery). simpl.
  apply (login_accepts settings bcrypt user_login t1 _ (verified_doc now' d));
    try done.
  apply find_one_Some. exists i.
  apply list_find_insert_found with (d := d); [done|].
  by apply list_find_Some in Hemail as (_ & ? & _).
Qed.

(** X11, for the pending student of the sample collection. *)
Lemma verify_then_login_witness :
  login_for_access_token default_settings test_bcrypt
    (mkUserLogin "a@x.com" "password123") 3000
    (verify_user_email "vtok" 2000 2001 test_db).2
  = Return {| access_token :=
                create_access_token default_settings
                  (claims (ObjectId_str (_id student_doc)) (email student_doc)
                     (role student_doc))
                  None 3000;
              token_type := "bearer" |}.
Proof.
  apply (verify_then_login default_settings test_bcrypt test_db "vtok"
           2000 2001 5000 3000 student_doc).
  - compute_done.
  - compute_done.
  - vm_compute. reflexivity.
  - reflexivity.
  - reflexivity.
  - lia.
  - vm_compute. reflexivity.
Defined.

(** X12. A password reset locks the account out: in the state that a
    successful reset leaves, a login to the address of the account raises
    [UnknownHashError] whatever password is given, the new one included,
    because the stored credential is the placeholder string and no bcrypt
    digest. *)
Theorem reset_then_login_raises
    (settings : Settings) (bcrypt : bcrypt_handler) (db : collection)
    (t new_password : string) (now now' e t1 : Z) (d : document)
    (user_login : UserLogin) :
  primary_key db →
  outstanding_once reset_password_token t db →
  find_one [Eq_email (ul_email user_login)] db = Some d →
  reset_password_token d = Some t →
  reset_password_token_expires_at d = Some e →
  now < e →
  (reset_user_password t new_password now now' db).1
  = Some (UserModel_call (reset_doc new_password now' d)) ∧
  login_for_access_token settings bcrypt user_login t1
    (reset_user_password t new_password now now' db).2
  = Raise UnknownHashError.
Proof.
  intros Hkey Honce Hfind Htok Hexp Hlt.
  destruct (find_one_lookup _ _ _ Hfind) as (i & Hi & Hemail).
  pose proof (list_find_reset_query db t now i d e
                Honce Hi Htok Hexp Hlt) as Hquery.
  rewrite (reset_user_password_found _ _ _ _ now' _ _ Hkey Hquery). simpl.
  split; [done|].
  assert (find_one [Eq_email (ul_email user_login)]
            (<[i := reset_doc new_password now' d]> db)
          = Some (reset_doc new_password now' d)) as Hfind'.
  { apply find_one_Some. exists i.
    apply list_find_insert_found with (d := d); [done|].
    by apply list_find_Some in Hemail as (_ & ? & _). }
  unfold login_for_access_token. rewrite Hfind'. done.
Qed.

(** X12, for the inactive teacher of the sample collection and the new
    password itself. *)
Lemma reset_then_login_raises_witness :
  login_for_access_token default_settings test_bcrypt
    (mkUserLogin "b@x.com" "newpassword1") 3000
    (reset_user_password "rtok3" "newpassword1" 2000 2001 test_db).2
  = Raise UnknownHashError.
Proof.
  apply (reset_then_login_raises default_settings test_bcrypt test_db
           "rtok3" "newpassword1" 2000 2001 5000 3000 inactive_doc).
  - compute_done.
  - compute_done.
  - vm_compute. reflexivity.
  - reflexivity.
  - reflexivity.
  - lia.
Defined.

(** ** The two token life cycles *)

Section LifeCycleFacts.
Implicit Types (db : collection) (d : document).

Lemma update_one_Forall (P : document → Prop) q update db :
  Forall P db →
  (∀ d, P d → P (apply_set update d)) →
  Forall P (update_one q update db).2.
Proof.
  intros Hall Hstep. unfold update_one.
  destruct (list_find _ db) as [[i d]|] eqn:E; simpl; [|done].
  apply list_find_Some in E as (Hi & _ & _).
  apply Forall_insert; [done|]. apply Hstep.
  by eapply Forall_lookup_1.
Qed.

Lemma verify_user_email_store t now now' db :
  (verify_user_email t now now' db).2 = db ∨
  ∃ d, d ∈ db ∧
       (verify_user_email t now now' db).2
       = (update_one [Eq__id (BObjectId (_id d))]
            [Set_is_verified true; Set_status ACTIVE;
             Set_verification_token None;
             Set_verification_token_expires_at None;
             Set_updated_at now'] db).2.
Proof.
  unfold verify_user_email.
  destruct (find_one _ db) as [d|] eqn:Hfind; [|by left].
  right. exists d. split.
  - destruct (find_one_lookup _ _ _ Hfind) as (i & Hi & _).
    by apply list_elem_of_lookup_2 in Hi.
  - destruct (update_one _ _ db) as [res db1]. simpl.
    by destruct (find_one _ db1).
Qed.

Lemma reset_user_password_store t new_password now now' db :
  (reset_user_password t new_password now now' db).2 = db ∨
  ∃ d, d ∈ db ∧
       (reset_user_password t new_password now now' db).2
       = (update_one [Eq__id (BObjectId (_id d))]
            [Set_hashed_password (hash_password_placeholder new_password);
             Set_reset_password_token None;
             Set_reset_password_token_expires_at None;
             Set_updated_at now'] db).2.
Proof.
  unfold reset_user_password.
  destruct (find_one _ db) as [d|] eqn:Hfind; [|by left].
  right. exists d. split.
  - destruct (find_one_lookup _ _ _ Hfind) as (i & Hi & _).
    by apply list_elem_of_lookup_2 in Hi.
  - destruct (update_one _ _ db) as [res db1]. simpl.
    by destruct (find_one _ db1).
Qed.

(** Rewriting a document by one that a predicate holds of only if it held
    of the old one does not add to the documents that satisfy it. *)
Lemma length_filter_insert (P : document → Prop) `{∀ d, Decision (P d)}
    db (i : nat) d d' :
  db !! i = Some d →
  (P d' → P d) →
  (length (filter P (<[i := d']> db)) ≤ length (filter P db))%nat.
Proof.
  revert i. induction db as [|x db IH]; intros i Hi Himp; [done|].
  destruct i as [|i]; simpl in *.
  - injection Hi as ->. rewrite !filter_cons.
    destruct (decide (P d')), (decide (P d)); simpl; try lia. tauto.
  - rewrite !filter_cons. specialize (IH i Hi Himp).
    destruct (decide (P x)); simpl; lia.
Qed.

Lemma update_one_outstanding_once field t q update db :
  outstanding_once field t db →
  (∀ d, field (apply_set update d) = Some t → field d = Some t) →
  outstanding_once field t (update_one q update db).2.
Proof.
  unfold outstanding_once, update_one. intros Honce Himp.
  destruct (list_find _ db) as [[i d]|] eqn:E; simpl; [|done].
  apply list_find_Some in E as (Hi & _ & _).
  etrans; [|exact Honce].
  apply (length_filter_insert (λ d, field d = Some t) db i d); auto.
Qed.

Lemma update_one_primary_key q update db :
  primary_key db →
  (∀ d, _id (apply_set update d) = _id d) →
  primary_key (update_one q update db).2.
Proof.
  unfold update_one. intros Hkey Hid.
  destruct (list_find _ db) as [[i d]|] eqn:E; simpl; [|done].
  apply list_find_Some in E as (Hi & _ & _).
  by eapply primary_key_insert.
Qed.
End LifeCycleFacts.

(** X13. A successful email verification rewrites one document, the one
    that held the token, and in it only [is_verified], [status],
    [verification_token], [verification_token_expires_at] and [updated_at];
    the password credential, a pending reset token and its expiry, and the
    identity of the account keep their values, and every other document is
    left as it was. *)
Theorem verify_user_email_frame
    (db db1 : collection) (t : string) (now now' : Z) (u : UserModel.t) :
  primary_key db →
  verify_user_email t now now' db = (Some u, db1) →
  ∃ (i : nat) (d d1 : document),
    db !! i = Some d ∧
    verification_token d = Some t ∧
    db1 = <[i := d1]> db ∧
    u = UserModel_call d1 ∧
    (* what is written *)
    is_verified d1 = true ∧
    status d1 = ACTIVE ∧
    verification_token d1 = None ∧
    verification_token_expires_at d1 = None ∧
    updated_at d1 = now' ∧
    (* what is kept *)
    _id d1 = _id d ∧
    email d1 = email d ∧
    hashed_password d1 = hashed_password d ∧
    full_name d1 = full_name d ∧
    role d1 = role d ∧
    reset_password_token d1 = reset_password_token d ∧
    reset_password_token_expires_at d1 = reset_password_token_expires_at d ∧
    created_at d1 = created_at d ∧
    (* the other accounts *)
    length db1 = length db ∧
    ∀ j : nat, j ≠ i → db1 !! j = db !! j.
Proof.
  intros Hkey Hverify.
  destruct (verify_user_email_success _ _ _ _ _ _ Hverify)
    as (i & d & Hfind).
  rewrite (verify_user_email_found _ _ _ _ _ _ Hkey Hfind) in Hverify.
  injection Hverify as <- <-.
  apply list_find_Some in Hfind as (Hi & Hm & _).
  apply matches_verification_query in Hm as [Htok _].
  exists i, d, (verified_doc now' d).
  split_and!; try done.
  - apply length_insert.
  - intros j Hne. by apply list_lookup_insert_ne.
Qed.

(** X13, at the pending student, who also holds a reset token. *)
Lemma verify_user_email_frame_witness :
  ∃ (i : nat) (d d1 : document),
    test_db !! i = Some d ∧
    (verify_user_email "vtok" 2000 2001 test_db).2 = <[i := d1]> test_db ∧
    hashed_password d1 = hashed_password d ∧
    reset_password_token d1 = Some "rtok".
Proof.
  destruct (verify_user_email_frame test_db
              (verify_user_email "vtok" 2000 2001 test_db).2
              "vtok" 2000 2001
              (UserModel_call (verified_doc 2001 student_doc)))
    as (i & d & d1 & Hi & Htok & Hdb & _ & _ & _ & _ & _ & _ & _ & _ & Hpw
        & _ & _ & Hreset & _).
  - compute_done.
  - vm_compute. reflexivity.
  - exists i, d, d1. split_and!; try done.
    rewrite Hreset.
    destruct i as [|[|[|[|i]]]]; simpl in Hi; simplify_eq; done.
Defined.

(** X14. A reset token is good for one password reset: after a
    successful reset a second confirmation with the same token, whatever the
    password it brings, finds nothing, is answered 400 "Invalid or expired
    password reset token." and changes nothing. *)
Theorem reset_token_single_use
    (db db1 : collection) (t new_password new_password2 : string)
    (now1 now1' now2 now2' : Z) (u : UserModel.t) :
  primary_key db →
  outstanding_once reset_password_token t db →
  reset_user_password t new_password now1 now1' db = (Some u, db1) →
  reset_user_password t new_password2 now2 now2' db1 = (None, db1) ∧
  confirm_password_reset (mkPasswordResetConfirm t new_password2)
    now2 now2' db1
  = (Raise (HTTPError {| status_code := HTTP_400_BAD_REQUEST;
                         detail := "Invalid or expired password reset token.";
                         headers := [] |}), db1).
Proof.
  intros Hkey Honce Hfirst.
  destruct (reset_user_password_success _ _ _ _ _ _ _ Hfirst)
    as (i & d & Hfind).
  rewrite (reset_user_password_found _ _ _ _ _ _ _ Hkey Hfind) in Hfirst.
  injection Hfirst as <- <-.
  apply list_find_Some in Hfind as (Hi & Hm & _).
  apply matches_reset_query in Hm as [Htok _].
  assert (reset_user_password t new_password2 now2 now2'
            (<[i := reset_doc new_password now1' d]> db)
          = (None, <[i := reset_doc new_password now1' d]> db)) as Hsecond.
  { unfold reset_user_password.
    assert (find_one [Eq_reset_password_token t;
                      Gt_reset_password_token_expires_at now2]
              (<[i := reset_doc new_password now1' d]> db) = None) as ->;
      [|done].
    apply find_one_None, Forall_lookup. intros j y Hj Hy.
    apply matches_reset_query in Hy as [Hy _].
    apply list_lookup_insert_Some in Hj as [(-> & <- & _)|(Hne & Hj)].
    - done.
    - destruct Hne. eauto using outstanding_once_lookup. }
  split; [done|].
  unfold confirm_password_reset. simpl. by rewrite Hsecond.
Qed.

(** X14, at the reset token of the inactive teacher. *)
Lemma reset_token_single_use_witness :
  reset_user_password "rtok3" "another-password" 3000 3001
    (reset_user_password "rtok3" "newpassword1" 2000 2001 test_db).2
  = (None, (reset_user_password "rtok3" "newpassword1" 2000 2001 test_db).2).
Proof.
  eapply (reset_token_single_use test_db _ "rtok3" "newpassword1"
            "another-password" 2000 2001 3000 3001).
  - compute_done.
  - compute_done.
  - vm_compute. reflexivity.
Defined.

(** X15. A verification token that no account holds, one whose expiry
    has passed and one whose expiry is the very instant of the request are
    answered alike: 400 "Invalid or expired verification token.", with the
    collection untouched. *)
Theorem verify_email_no_valid_token
    (db : collection) (t : string) (now now' : Z) :
  (∀ d e, d ∈ db → verification_token d = Some t →
          verification_token_expires_at d = Some e → e ≤ now) →
  verify_email_endpoint t now now' db
  = (Raise (HTTPError {| status_code := HTTP_400_BAD_REQUEST;
                         detail := "Invalid or expired verification token.";
                         headers := [] |}), db).
Proof.
  intros Hnone. unfold verify_email_endpoint, verify_user_email.
  assert (find_one [Eq_verification_token t;
                    Gt_verification_token_expires_at now] db = None) as ->;
    [|done].
  apply find_one_None, Forall_forall.
  intros d Hd (Htok & e & Hexp & Hlt)%matches_verification_query.
  specialize (Hnone d e Hd Htok Hexp). lia.
Qed.

(** X15, at the token of the pending student at the instant of its
    expiry. *)
Lemma verify_email_no_valid_token_witness :
  verify_email_endpoint "vtok" 5000 5001 test_db
  = (Raise (HTTPError {| status_code := HTTP_400_BAD_REQUEST;
                         detail := "Invalid or expired verification token.";
                         headers := [] |}), test_db).
Proof.
  apply verify_email_no_valid_token.
  intros d e Hd Htok Hexp. unfold test_db in Hd.
  repeat (apply elem_of_cons in Hd as [->|Hd];
          [vm_compute in Htok, Hexp; by simplify_eq|]).
  by apply not_elem_of_nil in Hd.
Defined.

(** X16. Likewise for the reset: a token that no account holds, an
    expired one and one expiring at the very instant of the request are
    answered 400 "Invalid or expired password reset token.", and neither a
    password nor anything else is written. *)
Theorem confirm_password_reset_no_valid_token
    (db : collection) (request : PasswordResetConfirm) (now now' : Z) :
  (∀ d e, d ∈ db → reset_password_token d = Some (prc_token request) →
          reset_password_token_expires_at d = Some e → e ≤ now) →
  confirm_password_reset request now now' db
  = (Raise (HTTPError {| status_code := HTTP_400_BAD_REQUEST;
                         detail := "Invalid or expired password reset token.";
                         headers := [] |}), db).
Proof.
  intros Hnone. unfold confirm_password_reset, reset_user_password.
  assert (find_one [Eq_reset_password_token (prc_token request);
                    Gt_reset_password_token_expires_at now] db = None) as ->;
    [|done].
  apply find_one_None, Forall_forall.
  intros d Hd (Htok & e & Hexp & Hlt)%matches_reset_query.
  specialize (Hnone d e Hd Htok Hexp). lia.
Qed.

(** X16, at a token that nobody holds. *)
Lemma confirm_password_reset_no_valid_token_witness :
  confirm_password_reset (mkPasswordResetConfirm "guess" "newpassword1")
    2000 2001 test_db
  = (Raise (HTTPError {| status_code := HTTP_400_BAD_REQUEST;
                         detail := "Invalid or expired password reset token.";
                         headers := [] |}), test_db).
Proof.
  apply confirm_password_reset_no_valid_token.
  intros d e Hd Htok Hexp. unfold test_db in Hd.
  repeat (apply elem_of_cons in Hd as [->|Hd];
          [vm_compute in Htok; by simplify_eq|]).
  by apply not_elem_of_nil in Hd.
Defined.

(** X17. Both consumes keep the invariants of the data model: in every
    account a token and its expiry stay both null or both set, and a
    verified account is not pending verification. *)
Theorem consume_keeps_account_invariant
    (db : collection) (tv tr new_password : string) (now now' : Z) :
  Forall account_invariant db →
  Forall account_invariant (verify_user_email tv now now' db).2 ∧
  Forall account_invariant
    (reset_user_password tr new_password now now' db).2.
Proof.
  intros Hinv. split.
  - destruct (verify_user_email_store tv now now' db) as [->|(d & _ & ->)];
      [done|].
    apply update_one_Forall; [done|].
    intros [] (Hv & Hr & Hs). unfold account_invariant in *. simpl in *.
    split_and!; done.
  - destruct (reset_user_password_store tr new_password now now' db)
      as [->|(d & _ & ->)]; [done|].
    apply update_one_Forall; [done|].
    intros [] (Hv & Hr & Hs). unfold account_invariant in *. simpl in *.
    split_and!; done.
Qed.

(** X17, at the sample collection. *)
Lemma consume_keeps_account_invariant_witness :
  Forall account_invariant (verify_user_email "vtok" 2000 2001 test_db).2 ∧
  Forall account_invariant
    (reset_user_password "rtok" "newpassword1" 2000 2001 test_db).2.
Proof.
  apply consume_keeps_account_invariant.
  unfold test_db. repeat apply Forall_cons_2; try apply Forall_nil_2;
    (split_and!; [split; intros; by simplify_eq..|intros; by simplify_eq]).
Defined.

(** X18. Both consumes keep the store well formed for one another: [_id]
    stays the primary key, and a value of either token field that is
    outstanding on at most one account stays so.  Neither consume ever
    writes a token. *)
Theorem consume_keeps_store_invariants
    (db : collection) (tv tr t' new_password : string) (now now' : Z)
    (field : document → option string) :
  field = verification_token ∨ field = reset_password_token →
  primary_key db →
  outstanding_once field t' db →
  primary_key (verify_user_email tv now now' db).2 ∧
  outstanding_once field t' (verify_user_email tv now now' db).2 ∧
  primary_key (reset_user_password tr new_password now now' db).2 ∧
  outstanding_once field t'
    (reset_user_password tr new_password now now' db).2.
Proof.
  intros Hfield Hkey Honce. split_and!.
  - by apply verify_user_email_primary_key.
  - destruct (verify_user_email_store tv now now' db) as [->|(d & _ & ->)];
      [done|].
    apply update_one_outstanding_once; [done|].
    intros []. by destruct Hfield as [-> | ->].
  - by apply reset_user_password_primary_key.
  - destruct (reset_user_password_store tr new_password now now' db)
      as [->|(d & _ & ->)]; [done|].
    apply update_one_outstanding_once; [done|].
    intros []. by destruct Hfield as [-> | ->].
Qed.

(** X18, at the sample collection. *)
Lemma consume_keeps_store_invariants_witness :
  primary_key (verify_user_email "vtok" 2000 2001 test_db).2 ∧
  outstanding_once reset_password_token "rtok"
    (verify_user_email "vtok" 2000 2001 test_db).2 ∧
  primary_key (reset_user_password "rtok3" "newpassword1" 2000 2001 test_db).2 ∧
  outstanding_once reset_password_token "rtok"
    (reset_user_password "rtok3" "newpassword1" 2000 2001 test_db).2.
Proof.
  apply (consume_keeps_store_invariants test_db "vtok" "rtok3" "rtok"
           "newpassword1" 2000 2001 reset_password_token).
  - by right.
  - compute_done.
  - compute_done.
Defined.

(** ** The endpoints that are to store a token *)

Section StoreTokenFacts.
Variable settings : Settings.

(** [store_verification_token] never writes: the name [ObjectId] is not
    bound in [verify_email.py] either. *)
Lemma store_verification_token_fails user_id token now now' db :
  store_verification_token settings user_id token now now' db = (false, db).
Proof. reflexivity. Qed.
End StoreTokenFacts.

(** X19. A password-reset request never stores a token and never
    schedules an email, whatever the address: it leaves the collection as it
    was, and answers the generic message when the address is unknown and 500
    "Failed to generate password reset token." when it is known. *)
Theorem request_password_reset_never_stores
    (settings : Settings) (request : PasswordResetRequest)
    (reset_token : string) (now now' : Z) (db : collection) :
  request_password_reset settings request reset_token now now' db
  = (match find_one [Eq_email (prr_email request)] db with
     | None => Return reset_request_message
     | Some _ =>
         Raise (HTTPError {|
           status_code := HTTP_500_INTERNAL_SERVER_ERROR;
           detail := "Failed to generate password reset token.";
           headers := [] |})
     end, db, []).
Proof.
  destruct (find_one [Eq_email (prr_email request)] db) as [d|] eqn:Hfind.
  - by apply (request_password_reset_registered _ _ _ _ _ _ d).
  - unfold request_password_reset. by rewrite Hfind.
Qed.

(** X20. Resending the verification email never succeeds: the endpoint
    answers 404 for an unknown address, 400 for a verified account and 500
    "Failed to update verification token." for an unverified one, and in no
    case does it change the collection (the token that is outstanding stays
    the valid one) or schedule an email. *)
Theorem resend_verification_never_succeeds
    (settings : Settings) (request : EmailVerificationRequest)
    (new_verification_token : string) (now now' : Z) (db : collection) :
  resend_verification_email_endpoint settings request new_verification_token
    now now' db
  = (Raise (HTTPError
       match find_one [Eq_email (evr_email request)] db with
       | None =>
           {| status_code := 404; detail := "User not found.";
              headers := [] |}
       | Some user_doc =>
           if is_verified user_doc
           then {| status_code := HTTP_400_BAD_REQUEST;
                   detail := "Email already verified."; headers := [] |}
           else {| status_code := HTTP_500_INTERNAL_SERVER_ERROR;
                   detail := "Failed to update verification token.";
                   headers := [] |}
       end), db, []).
Proof.
  unfold resend_verification_email_endpoint.
  destruct (find_one _ db) as [d|]; [|done]. simpl.
  by destruct (is_verified d).
Qed.

(** X21. Registration creates no account: for an address that is taken
    it answers 409 "Email already registered."; for a free one it stops, once
    the password is hashed and the token drawn, at the name [timedelta], which
    [routes.py] does not bind, before anything is inserted.  In both cases the
    collection is left as it was and no email is scheduled. *)
Theorem register_user_never_inserts
    (settings : Settings) (bcrypt : bcrypt_handler) (user_create : UserCreate)
    (salt verification_token : string) (new_id : ObjectId)
    (now created updated : Z) (db : collection) :
  register_user settings bcrypt user_create salt verification_token new_id
    now created updated db
  = (match find_one [Eq_email (uc_email user_create)] db with
     | Some _ =>
         Raise (HTTPError {|
           status_code := 409;
           detail := "Email already registered.";
           headers := [] |})
     | None => Raise (NameError "timedelta")
     end, db, []).
Proof.
  unfold register_user. by destruct (find_one _ db).
Qed.
